(** * NutriGuide document processor: filtering, classification and
    corpus validation ([backend/doc_processor.py])

    A shallow embedding of the page-admission filter, the page classifier,
    the per-document pipeline, the manifest loader and the corpus
    validator, followed by the properties stated about them.

    Conventions of the embedding.
    - A Python [str] is the [string] of its UTF-8 bytes.  Whitespace
      ([strip], [split]) is Python's: the characters for which
      [str.isspace] holds, of one, two or three bytes.  Slicing and length
      count characters, not bytes.  [lower] folds the letters A to Z,
      which is Python's [lower] on text whose cased letters are ASCII.
    - A Python [int] is a [Z]; a [dict] with string keys is a
      [gmap string _]; a [set] is a [gset _].
    - What [yaml.safe_load] returns is a [yaml] value; the manifest and
      its entries are read from it with [len], iteration and subscripts,
      as the loader does.  [ManifestEntry] is the record of an entry that
      has a string [id] and a string [path].
    - The file system is a map from a path, as the caller writes it, to
      what is found there.
    - An exception is a value of [exn]; a call that may raise returns a
      [result].  Logging is not modelled. *)

From Stdlib Require Import ZArith Ascii String Bool List Lia Sorted.
From stdpp Require Import gmap strings list.

Local Open Scope Z_scope.

(** ** Python string primitives *)

Module Py.

Definition code (c : ascii) : N := N_of_ascii c.

(** [str.isspace], by the length of the character in UTF-8.  One byte:
    TAB, LF, VT, FF, CR, FS, GS, RS, US and the blank.  Two bytes: U+0085
    and U+00A0.  Three bytes: U+1680, U+2000 to U+200A, U+2028, U+2029,
    U+202F, U+205F and U+3000. *)
Definition is_space1 (c : ascii) : bool :=
  ((9 <=? code c) && (code c <=? 13) || (28 <=? code c) && (code c <=? 32))%N.

Definition is_space2 (c d : ascii) : bool :=
  ((code c =? 194) && ((code d =? 133) || (code d =? 160)))%N.

Definition is_space3 (c d e : ascii) : bool :=
  ((code c =? 225) && (code d =? 154) && (code e =? 128)
   || (code c =? 226) && (code d =? 128)
      && ((128 <=? code e) && (code e <=? 138) || (code e =? 168)
          || (code e =? 169) || (code e =? 175))
   || (code c =? 226) && (code d =? 129) && (code e =? 159)
   || (code c =? 227) && (code d =? 128) && (code e =? 128))%N.

(** A byte that continues a character begun by an earlier byte. *)
Definition is_continuation (c : ascii) : bool :=
  ((128 <=? code c) && (code c <? 192))%N.

Definition lower_char (c : ascii) : ascii :=
  let n := N_of_ascii c in
  if ((65 <=? n) && (n <=? 90))%N then ascii_of_N (n + 32) else c.

(** [s.lower()] *)
Fixpoint lower (s : string) : string :=
  match s with
  | EmptyString => EmptyString
  | String c s' => String (lower_char c) (lower s')
  end.

(** [s] is made of whitespace characters only (or is empty). *)
Fixpoint blank (s : string) : bool :=
  match s with
  | EmptyString => true
  | String c s1 =>
      if is_space1 c then blank s1
      else match s1 with
           | String d s2 =>
               if is_space2 c d then blank s2
               else match s2 with
                    | String e s3 => if is_space3 c d e then blank s3 else false
                    | EmptyString => false
                    end
           | EmptyString => false
           end
  end.

(** What follows the whitespace character [s] starts with, when it
    starts with one. *)
Definition skip_space (s : string) : option string :=
  match s with
  | EmptyString => None
  | String c s1 =>
      if is_space1 c then Some s1
      else match s1 with
           | String d s2 =>
               if is_space2 c d then Some s2
               else match s2 with
                    | String e s3 => if is_space3 c d e then Some s3 else None
                    | EmptyString => None
                    end
           | EmptyString => None
           end
  end.

(** [s.lstrip()], [s.rstrip()], [s.strip()] *)
Fixpoint lstrip (s : string) : string :=
  match s with
  | EmptyString => EmptyString
  | String c s1 =>
      if is_space1 c then lstrip s1
      else match s1 with
           | String d s2 =>
               if is_space2 c d then lstrip s2
               else match s2 with
                    | String e s3 => if is_space3 c d e then lstrip s3 else s
                    | EmptyString => s
                    end
           | EmptyString => s
           end
  end.

Fixpoint rstrip (s : string) : string :=
  match s with
  | EmptyString => EmptyString
  | String c s' => if blank s then EmptyString else String c (rstrip s')
  end.

Definition strip (s : string) : string := rstrip (lstrip s).

(** [s.split()]: the maximal runs of non-whitespace characters.
    [split_go cur s] carries the word being read. *)
Fixpoint split_go (cur : option string) (s : string) : list string :=
  match s with
  | EmptyString => option_list cur
  | String c s1 =>
      let word := Some (from_option (fun w => w +:+ String c EmptyString)
                                    (String c EmptyString) cur) in
      if is_space1 c then option_list cur ++ split_go None s1
      else match s1 with
           | String d s2 =>
               if is_space2 c d then option_list cur ++ split_go None s2
               else match s2 with
                    | String e s3 =>
                        if is_space3 c d e then option_list cur ++ split_go None s3
                        else split_go word s1
                    | EmptyString => split_go word s1
                    end
           | EmptyString => split_go word s1
           end
  end.

Definition split (s : string) : list string := split_go None s.

(** [needle in hay] *)
Fixpoint contains (needle hay : string) : bool :=
  String.prefix needle hay ||
  match hay with
  | EmptyString => false
  | String _ hay' => contains needle hay'
  end.

(** [len(s)]: the number of characters. *)
Fixpoint len (s : string) : nat :=
  match s with
  | EmptyString => O
  | String c s' => if is_continuation c then len s' else S (len s')
  end.

(** [s[:n]] for [n >= 0]: the first [n] characters, each with all its
    bytes. *)
Fixpoint take (n : nat) (s : string) : string :=
  match s with
  | EmptyString => EmptyString
  | String c s' =>
      if is_continuation c then String c (take n s')
      else match n with
           | O => EmptyString
           | S n' => String c (take n' s')
           end
  end.

(** The characters of [s], in order: what iterating over [s] yields. *)
Fixpoint chars (s : string) : list string :=
  match s with
  | EmptyString => []
  | String c s' =>
      match chars s' with
      | String d x :: rest =>
          if is_continuation d then String c (String d x) :: rest
          else String c EmptyString :: String d x :: rest
      | rest => String c EmptyString :: rest
      end
  end.

(** [s.replace(a, b)] for one-character [a] and [b] *)
Fixpoint replace_char (a b : ascii) (s : string) : string :=
  match s with
  | EmptyString => EmptyString
  | String c s' => String (if Ascii.eqb c a then b else c) (replace_char a b s')
  end.

(** [os.path.basename] of a path: what follows the last slash. *)
Fixpoint basename (p : string) : string :=
  match p with
  | EmptyString => EmptyString
  | String c p' =>
      if contains "/" p' then basename p'
      else if Ascii.eqb c "/" then p' else p
  end.

(** The parts of a path between its slashes; [cur] is the part being
    read. *)
Fixpoint path_parts (cur p : string) : list string :=
  match p with
  | EmptyString => [cur]
  | String c p' =>
      if Ascii.eqb c "/" then cur :: path_parts EmptyString p'
      else path_parts (cur +:+ String c EmptyString) p'
  end.

Fixpoint join_parts (parts : list string) : string :=
  match parts with
  | [] => EmptyString
  | [x] => x
  | x :: rest => x +:+ "/" +:+ join_parts rest
  end.

(** [str(Path(p))] on a POSIX system: empty parts and [.] parts are
    dropped, the root is kept (two leading slashes stay two, three or more
    become one), and the empty path is [.]. *)
Definition path_str (p : string) : string :=
  let parts := filter (fun x => x ≠ EmptyString ∧ x ≠ ".") (path_parts EmptyString p) in
  let root :=
    match p with
    | String "/" (String "/" (String "/" _)) => "/"
    | String "/" (String "/" _) => "//"
    | String "/" _ => "/"
    | _ => EmptyString
    end in
  let s := root +:+ join_parts parts in
  if String.eqb s EmptyString then "." else s.

(** [any(t in text for t in terms)] and
    [sum(1 for t in terms if t in text)] *)
Definition any_in (terms : list string) (text : string) : bool :=
  existsb (fun t => contains t text) terms.

Definition count_in (terms : list string) (text : string) : Z :=
  Z.of_nat (length (filter (fun t => contains t text = true) terms)).

End Py.

(** ** Exceptions and values *)

(** The text of an exception: known in full, or known up to what the
    underlying library error adds at its end. *)
Inductive message : Type :=
  | Exactly (text : string)
  | StartsWith (prefix : string).

Inductive exn : Type :=
  | FileNotFoundError (msg : string)
  | ValueError (msg : message)
  | KeyError (key : string)
  | TypeError
  | AttributeError.

Inductive result (A : Type) : Type :=
  | Return (a : A)
  | Raise (e : exn).
Arguments Return {A} a.
Arguments Raise {A} e.

Definition bind {A B : Type} (r : result A) (k : A -> result B) : result B :=
  match r with
  | Return a => k a
  | Raise e => Raise e
  end.

Notation "x <- r ;; k" := (bind r (fun x => k))
  (at level 100, r at next level, right associativity).

(** What [yaml.safe_load] can return: null, a boolean, an integer, a
    string, a sequence, or a mapping (with its keys as strings). *)
#[warnings="-register-all"] Inductive yaml : Type :=
  | YNull
  | YBool (b : bool)
  | YInt (n : Z)
  | YStr (s : string)
  | YSeq (items : list yaml)
  | YMap (fields : gmap string yaml).

(** [v[key]] for a string [key]: only a mapping can be subscripted by a
    string. *)
Definition py_getitem (v : yaml) (key : string) : result yaml :=
  match v with
  | YMap fields =>
      match fields !! key with
      | Some x => Return x
      | None => Raise (KeyError key)
      end
  | _ => Raise TypeError
  end.

(** [len(v)] *)
Definition py_len (v : yaml) : result Z :=
  match v with
  | YStr s => Return (Z.of_nat (Py.len s))
  | YSeq items => Return (Z.of_nat (length items))
  | YMap fields => Return (Z.of_nat (size fields))
  | _ => Raise TypeError
  end.

(** What [for x in v] goes through: the items of a sequence, the keys of
    a mapping, the characters of a string. *)
Definition py_iter (v : yaml) : result (list yaml) :=
  match v with
  | YStr s => Return (YStr <$> Py.chars s)
  | YSeq items => Return items
  | YMap fields => Return (YStr <$> (map_to_list fields).*1)
  | _ => Raise TypeError
  end.

(** [Path(v)]: the path as written, when [v] is a string. *)
Definition py_Path (v : yaml) : result string :=
  match v with
  | YStr s => Return s
  | _ => Raise TypeError
  end.

(** The values stored in a chunk's metadata dictionary. *)
Inductive pyval : Type :=
  | VStr (s : string)
  | VInt (n : Z)
  | VBool (b : bool)
  | VList (l : list string)
  | VData (v : yaml).

(** The strings of a sequence of strings. *)
Fixpoint strings_of (items : list yaml) : option (list string) :=
  match items with
  | [] => Some []
  | YStr s :: rest => cons s <$> strings_of rest
  | _ => None
  end.

(** A manifest value as a metadata value: a list of strings is a [VList],
    a string, integer or boolean is itself, anything else is kept as
    data. *)
Definition yaml_to_pyval (v : yaml) : pyval :=
  match v with
  | YStr s => VStr s
  | YInt n => VInt n
  | YBool b => VBool b
  | YSeq items =>
      match strings_of items with
      | Some l => VList l
      | None => VData v
      end
  | _ => VData v
  end.

(** [d[key]] on a metadata dictionary *)
Definition getitem (d : gmap string pyval) (key : string) : result pyval :=
  match d !! key with
  | Some v => Return v
  | None => Raise (KeyError key)
  end.

(** ** Data model *)

Record DocumentMetadata : Type := {
  source_id : string;
  source_file : string;
  page_number : Z;
  document_type : string;
  topics : pyval;
  life_stages : list string;
  contains_tables : bool;
  safety_level : string
}.

Definition to_dict (m : DocumentMetadata) : gmap string pyval :=
  <["source" := VStr (source_id m)]>
  (<["source_file" := VStr (source_file m)]>
  (<["page" := VInt (page_number m)]>
  (<["document_type" := VStr (document_type m)]>
  (<["topics" := topics m]>
  (<["life_stages" := VList (life_stages m)]>
  (<["contains_tables" := VBool (contains_tables m)]>
  (<["safety_level" := VStr (safety_level m)]> ∅))))))).

(** langchain's [Document]: the text and a metadata dictionary. *)
Record Document : Type := {
  page_content : string;
  metadata : gmap string pyval
}.

(** One manifest entry with a string [id] and a string [path].  [source]
    and [topics] are read with [entry.get]; [source] is only logged, and
    [topics] is stored as it is. *)
Record ManifestEntry : Type := {
  entry_id : string;
  entry_path : string;
  entry_source : option string;
  entry_topics : option yaml
}.

(** The mapping a manifest entry is read from. *)
Definition entry_yaml (entry : ManifestEntry) : yaml :=
  let with_topics : gmap string yaml :=
    match entry_topics entry with
    | Some v => {[ "topics" := v ]}
    | None => ∅
    end in
  let with_source :=
    match entry_source entry with
    | Some s => <["source" := YStr s]> with_topics
    | None => with_topics
    end in
  YMap (<["id" := YStr (entry_id entry)]> (<["path" := YStr (entry_path entry)]> with_source)).

(** The entry read from [item], when [item] is a mapping whose [id] and
    [path] are strings. *)
Definition as_entry (item : yaml) : option ManifestEntry :=
  match item with
  | YMap fields =>
      match fields !! "id", fields !! "path" with
      | Some (YStr id), Some (YStr path) =>
          Some {| entry_id := id;
                  entry_path := path;
                  entry_source :=
                    match fields !! "source" with
                    | Some (YStr s) => Some s
                    | _ => None
                    end;
                  entry_topics := fields !! "topics" |}
      | _, _ => None
      end
  | _ => None
  end.

(** What [page.extract_text()] does on one page: returns a string or
    [None], or raises. *)
Inductive extract_result : Type :=
  | Extracted (text : option string)
  | ExtractRaises.

(** The files the loader can meet: one that [yaml.safe_load] parses, a
    PDF that [PdfReader] opens, or anything else. *)
Inductive file : Type :=
  | YamlDoc (doc : yaml)
  | PdfFile (pages : list extract_result)
  | OtherFile.

(** A manifest file that lists the entries of [corpus]. *)
Definition YamlFile (corpus : list ManifestEntry) : file :=
  YamlDoc (YSeq (entry_yaml <$> corpus)).

(** [yaml.safe_load] on an open file: the parsed value, or nothing when
    the parser raises. *)
Definition yaml_safe_load (f : file) : option yaml :=
  match f with
  | YamlDoc doc => Some doc
  | _ => None
  end.

(** ** ContentFilter *)

Module ContentFilter.

Definition NUTRITION_KEYWORDS : list string := [
  "guideline"; "recommendation"; "serving"; "daily value"; "mg"; "gram";
  "sodium"; "sugar"; "fat"; "vitamin"; "mineral"; "calorie"; "dietary";
  "food group"; "vegetable"; "fruit"; "dairy"; "protein"; "grain";
  "pregnant"; "infant"; "child"; "adult"; "elderly"; "limit"; "consume";
  "adequate intake"; "tolerable upper"; "reference value"; "dietary allowance"
].

Definition USDA_ADMIN_PATTERNS : list string := [
  "table of contents"; "message from the secretaries"; "acknowledgments";
  "appendix"; "bibliography"; "references"; "about this edition";
  "how to use this document"; "part"; "chapter"; "section"; "figure";
  "suggested citation"; "dietaryguidelines.gov"; "isbn"; "printed in the united states";
  "government printing office"; "library of congress"; "executive summary";
  "key recommendations"; "page x"; "page xi"; "page xii"
].

Definition is_low_value_page (text : string) (page_num total_pages nutrition_matches : Z)
  : bool :=
  if String.eqb text "" || (Z.of_nat (String.length (Py.strip text)) =? 0) then true
  else
    let text_lower := Py.strip (Py.lower text) in
    let word_count := Z.of_nat (length (Py.split text_lower)) in
    if (page_num <=? 15) && (1 <=? Py.count_in USDA_ADMIN_PATTERNS text_lower) then true
    else if (page_num <=? 20) && (nutrition_matches <? 3) then true
    else if Py.contains "table of contents" text_lower && Py.contains "page" text_lower
            && (word_count <? 500) then true
    else if (Py.contains "copyright" text_lower || Py.contains "©" text_lower)
            && Py.contains "reserved" text_lower && (word_count <? 300) then true
    else false.

Definition pregnancy_terms : list string := ["pregnant"; "pregnancy"; "maternal"; "antenatal"].
Definition breastfeeding_terms : list string := ["breastfeed"; "lactation"; "breast milk"].
Definition infant_terms : list string := ["infant"; "baby"; "birth"; "newborn"; "0-12 months"].
Definition child_terms : list string :=
  ["child"; "children"; "adolescent"; "teen"; "toddler"; "preschool"].
Definition adult_terms : list string := ["adult"; "adults"; "middle aged"].
Definition older_terms : list string := ["older"; "elderly"; "senior"; "65+"; "aging"].

(** [life_stages.add(tag)] when [cond] holds *)
Definition add_if (cond : bool) (tag : string) (life_stages : gset string) : gset string :=
  if cond then life_stages ∪ {[tag]} else life_stages.

(** The set built by the six tests, in source order. *)
Definition life_stage_set (text : string) : gset string :=
  let text_lower := Py.lower text in
  let s0 : gset string := ∅ in
  let s1 := add_if (Py.any_in pregnancy_terms text_lower) "pregnant" s0 in
  let s2 := add_if (Py.any_in breastfeeding_terms text_lower) "breastfeeding" s1 in
  let s3 := add_if (Py.any_in infant_terms text_lower) "infants" s2 in
  let s4 := add_if (Py.any_in child_terms text_lower) "children_teens" s3 in
  let s5 :=
    if Py.any_in adult_terms text_lower then
      if Py.any_in older_terms text_lower then s4 ∪ {["older_adults"]}
      else s4 ∪ {["adults"]}
    else s4 in
  add_if (Py.contains "athlete" text_lower || Py.contains "sports" text_lower) "athletes" s5.

(** [list(life_stages) if life_stages else ["general"]].  Python leaves
    the order of [list(set)] open; [elements] fixes one. *)
Definition detect_life_stages (text : string) : list string :=
  let life_stages := life_stage_set text in
  if decide (life_stages = ∅) then ["general"] else elements life_stages.

End ContentFilter.

(** ** TableProcessor *)

Module TableProcessor.

Definition nutrient_indicators : list string := [
  "daily value"; "dv%"; "recommended intake"; "adequate intake";
  "tolerable upper intake level"; "ul"; "ai"; "rda";
  "food sources of"; "milligrams per day"; "grams per day";
  "sodium recommendation"; "sugar recommendation"; "fat recommendation";
  "vitamin d"; "calcium"; "potassium"; "fiber"; "nutrient"
].

Definition non_nutrient_indicators : list string := [
  "table of contents"; "figure"; "appendix"; "bibliography";
  "references"; "acknowledgments"; "contributors"; "reviewers";
  "chapter"; "section"; "part"; "page number"
].

Definition detect_nutrient_tables (text : string) : bool :=
  let text_lower := Py.lower text in
  let nutrient_count := Py.count_in nutrient_indicators text_lower in
  let has_disqualifier := Py.any_in non_nutrient_indicators text_lower in
  (2 <=? nutrient_count) && negb has_disqualifier.

Definition newline : string := String (ascii_of_N 10) EmptyString.

Definition extract_table_content (text : string) : string :=
  if negb (detect_nutrient_tables text) then text
  else "[NUTRIENT_TABLE_START]" +:+ newline +:+ text +:+ newline +:+ "[NUTRIENT_TABLE_END]".

End TableProcessor.

(** ** Quality validation of processed chunks *)

Definition admin_keywords : list string := [
  "citation"; "downloaded"; "publication"; "printed"; "isbn";
  "government printing"; "congress"; "copyright"; "reserved";
  "acknowledgments"; "funding"; "contract"; "prepared by";
  "submitted to"; "drafted by"; "suggested citation"; "dietaryguidelines.gov"
].

(** One tuple of [problematic_chunks]. *)
Record problem : Type := {
  prob_index : nat;
  prob_source : pyval;
  prob_page : pyval;
  prob_admin_count : Z;
  prob_nutrition_count : Z;
  prob_word_count : Z;
  prob_preview : string
}.

Definition admin_count_of (doc : Document) : Z :=
  Py.count_in admin_keywords (Py.lower (page_content doc)).
Definition nutrition_count_of (doc : Document) : Z :=
  Py.count_in ContentFilter.NUTRITION_KEYWORDS (Py.lower (page_content doc)).
Definition word_count_of (doc : Document) : Z :=
  Z.of_nat (length (Py.split (Py.lower (page_content doc)))).

(** The condition of the [if] in the loop of [validate_processed_chunks]. *)
Definition is_flagged (doc : Document) : bool :=
  let text_lower := Py.lower (page_content doc) in
  let admin_count := admin_count_of doc in
  let nutrition_count := nutrition_count_of doc in
  let word_count := word_count_of doc in
  (2 <=? admin_count) && (nutrition_count <? 2) && (word_count <? 300)
  || Py.contains "suggested citation" text_lower
  || Py.contains "dietaryguidelines.gov" text_lower && (nutrition_count <? 3).

(** The loop over [enumerate(documents)], from position [i] on.  A flagged
    document whose metadata lacks ['source'] or ['page'] raises [KeyError]
    when its tuple is built, which ends the loop. *)
Fixpoint validate_from (i : nat) (documents : list Document) : result (list problem) :=
  match documents with
  | [] => Return []
  | doc :: rest =>
      if is_flagged doc then
        source <- getitem (metadata doc) "source" ;;
        page <- getitem (metadata doc) "page" ;;
        let p := {| prob_index := i;
                    prob_source := source;
                    prob_page := page;
                    prob_admin_count := admin_count_of doc;
                    prob_nutrition_count := nutrition_count_of doc;
                    prob_word_count := word_count_of doc;
                    prob_preview :=
                      Py.replace_char (ascii_of_N 10) " " (Py.take 150 (page_content doc))
                      +:+ "..." |} in
        problematic_chunks <- validate_from (S i) rest ;;
        Return (p :: problematic_chunks)
      else validate_from (S i) rest
  end.

Definition validate_processed_chunks (documents : list Document) : result (list problem) :=
  validate_from 0 documents.

(** ** Processing one document *)

Definition medical_triggers : list string :=
  ["pregnant"; "breastfeed"; "infant"; "medical condition"; "disease"; "disorder"; "illness"].
Definition professional_triggers : list string :=
  ["professional use only"; "healthcare provider"; "clinician"; "prescribe"; "diagnose"; "treat"].

Definition nutrient_id_terms : list string :=
  ["nutrient"; "sodium"; "sugar"; "fat"; "vitamin"].

(** "Determine document type": from [entry['id']] only. *)
Definition doc_type_of (id : string) : string :=
  if Py.any_in nutrient_id_terms (Py.lower id)
  then "nutrient_specific"
  else if Py.contains "summary" (Py.lower id) || Py.contains "executive" (Py.lower id)
  then "summary"
  else "core_guideline".

(** "Determine safety level" *)
Definition safety_level_of (nutrition_matches : Z) (text_lower : string) : string :=
  if nutrition_matches <? 3 then "administrative"
  else
    let safety_level := "general" in
    let safety_level :=
      if Py.any_in medical_triggers text_lower then "medical_caution" else safety_level in
    if Py.any_in professional_triggers text_lower then "professional_use_only"
    else safety_level.

(** The body of the page loop: [None] when the page is skipped (low value,
    or an exception caught by the page-level handler), the chunk
    otherwise. *)
Definition process_page (entry : ManifestEntry) (doc_type : string)
    (total_pages page_num : Z) (page : extract_result) : option Document :=
  match page with
  | ExtractRaises => None
  | Extracted extracted =>
      let text := default "" extracted in
      let text_lower := Py.lower text in
      let nutrition_matches := Py.count_in ContentFilter.NUTRITION_KEYWORDS text_lower in
      if ContentFilter.is_low_value_page text page_num total_pages nutrition_matches then None
      else
        let life_stages :=
          if 3 <=? nutrition_matches then ContentFilter.detect_life_stages text
          else ["general"] in
        let contains_tables := TableProcessor.detect_nutrient_tables text in
        let text' := if contains_tables then TableProcessor.extract_table_content text else text in
        let safety_level := safety_level_of nutrition_matches text_lower in
        let metadata :=
          {| source_id := entry_id entry;
             source_file := Py.basename (Py.path_str (entry_path entry));
             page_number := page_num;
             document_type := doc_type;
             topics := from_option yaml_to_pyval (VList ["general"]) (entry_topics entry);
             life_stages := life_stages;
             contains_tables := contains_tables;
             safety_level := safety_level |} in
        Some {| page_content := text'; metadata := to_dict metadata |}
  end.

(** [for page_num in range(first, total_pages + 1)] over the pages that
    are left. *)
Fixpoint process_pages (entry : ManifestEntry) (doc_type : string)
    (total_pages page_num : Z) (pages : list extract_result) : list Document :=
  match pages with
  | [] => []
  | page :: rest =>
      option_list (process_page entry doc_type total_pages page_num page)
      ++ process_pages entry doc_type total_pages (page_num + 1) rest
  end.

(** The message of the [ValueError] raised when [PdfReader] fails: the
    path, then the text of the reader's own error. *)
Definition pdf_read_error (path : string) : exn :=
  ValueError (StartsWith ("PDF read error " +:+ Py.path_str path +:+ ": ")).

Definition process_single_document (fs : gmap string file) (entry : ManifestEntry)
  : result (list Document) :=
  match fs !! entry_path entry with
  | None =>
      Raise (FileNotFoundError
               ("Document missing: " +:+ Py.path_str (entry_path entry)
                +:+ " for " +:+ entry_id entry))
  | Some (PdfFile pages) =>
      let total_pages := Z.of_nat (length pages) in
      let doc_type := doc_type_of (entry_id entry) in
      Return (process_pages entry doc_type total_pages 1 pages)
  | Some _ => Raise (pdf_read_error (entry_path entry))
  end.

(** ** The loader *)

(** The state of the loop over the manifest. *)
Record load_state : Type := {
  all_documents : list Document;
  successful_docs : Z;
  failed_docs : Z
}.

Definition initial_state : load_state :=
  {| all_documents := []; successful_docs := 0; failed_docs := 0 |}.

(** The [try] body of one iteration, after its first line: the path is
    read and checked, then the document is processed.  When the [id] of
    the item is no string, [process_single_document] fails at
    [entry['id'].lower()], once the PDF is open. *)
Definition try_entry (fs : gmap string file) (item : yaml) : result (list Document) :=
  path <- py_getitem item "path" ;;
  doc_path <- py_Path path ;;
  match fs !! doc_path with
  | None => Raise (FileNotFoundError ("Missing document: " +:+ Py.path_str doc_path))
  | Some f =>
      match as_entry item with
      | Some entry => process_single_document fs entry
      | None =>
          match f with
          | PdfFile _ => Raise AttributeError
          | _ => Raise (pdf_read_error doc_path)
          end
      end
  end.

(** One iteration of [for entry in corpus].  The first line of the [try]
    body reads [entry['id']]; when that raises, the [except Exception]
    handler reads [entry['id']] again for its log line, outside any [try],
    and the error leaves the loader.  Any other exception of the body is
    caught and counted. *)
Definition load_item (fs : gmap string file) (st : load_state) (item : yaml)
  : result load_state :=
  match py_getitem item "id" with
  | Raise e => Raise e
  | Return _ =>
      match try_entry fs item with
      | Return docs =>
          Return {| all_documents := all_documents st ++ docs;
                    successful_docs := successful_docs st + 1;
                    failed_docs := failed_docs st |}
      | Raise _ =>
          Return {| all_documents := all_documents st;
                    successful_docs := successful_docs st;
                    failed_docs := failed_docs st + 1 |}
      end
  end.

Fixpoint load_items (fs : gmap string file) (st : load_state) (items : list yaml)
  : result load_state :=
  match items with
  | [] => Return st
  | item :: rest =>
      st' <- load_item fs st item ;;
      load_items fs st' rest
  end.

(** The state of the loop at its end, on a manifest whose items are the
    entries of [corpus].  Every entry has its [id], so the loop does not
    stop early there. *)
Definition load_entries (fs : gmap string file) (corpus : list ManifestEntry) : load_state :=
  match load_items fs initial_state (entry_yaml <$> corpus) with
  | Return st => st
  | Raise _ => initial_state
  end.

Fixpoint enumerate_from {A : Type} (i : nat) (l : list A) : list (nat * A) :=
  match l with
  | [] => []
  | x :: l' => (i, x) :: enumerate_from (S i) l'
  end.

(** "Remove bad chunks": the documents whose position is not among the
    positions of the problematic tuples. *)
Definition remove_problematic (problematic : list problem) (documents : list Document)
  : list Document :=
  let indices_to_remove : gset nat := list_to_set (map prob_index problematic) in
  map snd (filter (fun p => fst p ∉ indices_to_remove) (enumerate_from 0 documents)).

Definition integrity_error : exn :=
  ValueError (Exactly "No valid chunks remained after validation - safety compromised").

(** The validation block that ends [load_and_preprocess_documents], as a
    function of the aggregated chunk list. *)
Definition validate_and_clean (documents : list Document) : result (list Document) :=
  match validate_processed_chunks documents with
  | Raise _ => Return documents
  | Return [] => Return documents
  | Return problematic =>
      let cleaned_documents := remove_problematic problematic documents in
      match cleaned_documents with
      | [] => Raise integrity_error
      | _ => Return cleaned_documents
      end
  end.

(** The [ValueError] of the manifest [try]: its text ends with the text
    of the error that was caught. *)
Definition manifest_error : exn :=
  ValueError (StartsWith "Manifest load error: ").

(** The manifest [try] holds the parser and [len(corpus)]; the loop and
    the validation block come after it. *)
Definition load_and_preprocess_documents (fs : gmap string file) (manifest_path : string)
  : result (list Document) :=
  match fs !! manifest_path with
  | None => Raise (FileNotFoundError ("Manifest file not found: " +:+ manifest_path))
  | Some f =>
      match yaml_safe_load f with
      | None => Raise manifest_error
      | Some corpus =>
          match py_len corpus with
          | Raise _ => Raise manifest_error
          | Return _ =>
              items <- py_iter corpus ;;
              st <- load_items fs initial_state items ;;
              validate_and_clean (all_documents st)
          end
      end
  end.

(** ** Vocabulary of the statements *)

(** [needle] occurs in [hay]. *)
Definition Substring (needle hay : string) : Prop :=
  ∃ pre post, hay = pre +:+ needle +:+ post.

(** [text] contains [term] as a case-insensitive substring. *)
Definition icontains (term text : string) : Prop :=
  Substring term (Py.lower text).

(** [text] mentions one of [terms], case-insensitively. *)
Definition mentions (terms : list string) (text : string) : Prop :=
  ∃ t, t ∈ terms ∧ icontains t text.

(** Only whitespace (or nothing at all). *)
Abbreviation blank := Py.blank.



(** The nutrition-keyword count of a page, as [process_single_document]
    computes it before it calls the filter. *)
Definition nutrition_keyword_count (text : string) : Z :=
  Py.count_in ContentFilter.NUTRITION_KEYWORDS (Py.lower text).

(** The word count [is_low_value_page] works with. *)
Definition page_word_count (text : string) : Z :=
  Z.of_nat (length (Py.split (Py.strip (Py.lower text)))).

(** A chunk's metadata has the two keys the validator reads. *)
Definition chunk_keys_present (doc : Document) : Prop :=
  is_Some (metadata doc !! "source") ∧ is_Some (metadata doc !! "page").

(** The metadata record of the chunk of an admitted page. *)
Definition page_metadata (entry : ManifestEntry) (doc_type : string) (page_num : Z)
    (text : string) : DocumentMetadata :=
  let nutrition_matches := nutrition_keyword_count text in
  {| source_id := entry_id entry;
     source_file := Py.basename (Py.path_str (entry_path entry));
     page_number := page_num;
     document_type := doc_type;
     topics := from_option yaml_to_pyval (VList ["general"]) (entry_topics entry);
     life_stages :=
       if 3 <=? nutrition_matches then ContentFilter.detect_life_stages text
       else ["general"];
     contains_tables := TableProcessor.detect_nutrient_tables text;
     safety_level := safety_level_of nutrition_matches (Py.lower text) |}.

(** The chunks the validator does not flag, in their order. *)
Definition survivors (documents : list Document) : list Document :=
  filter (λ doc, is_flagged doc = false) documents.

(** What one manifest entry adds to the aggregate: its chunks, or nothing
    when processing it raises. *)
Definition entry_chunks (fs : gmap string file) (entry : ManifestEntry) : list Document :=
  match process_single_document fs entry with
  | Return docs => docs
  | Raise _ => []
  end.

Definition entry_fails (fs : gmap string file) (entry : ManifestEntry) : bool :=
  match process_single_document fs entry with
  | Return _ => false
  | Raise _ => true
  end.

(** The aggregate of a manifest, entry by entry, and the number of its
    entries that fail. *)
Definition corpus_chunks (fs : gmap string file) (corpus : list ManifestEntry)
  : list Document :=
  concat (map (entry_chunks fs) corpus).

Definition count_failed (fs : gmap string file) (corpus : list ManifestEntry) : Z :=
  Z.of_nat (length (filter (λ entry, entry_fails fs entry = true) corpus)).

Definition count_successful (fs : gmap string file) (corpus : list ManifestEntry) : Z :=
  Z.of_nat (length (filter (λ entry, entry_fails fs entry = false) corpus)).

(** *** Manifest items *)

(** The mapping [item] has the key [id]. *)
Definition carries_id (item : yaml) : Prop :=
  ∃ v, py_getitem item "id" = Return v.

(** What [item] adds to the aggregate: the chunks of the entry it
    describes, or nothing when it describes none or processing it
    raises. *)
Definition item_chunks (fs : gmap string file) (item : yaml) : list Document :=
  match as_entry item with
  | Some entry => entry_chunks fs entry
  | None => []
  end.

Definition item_fails (fs : gmap string file) (item : yaml) : bool :=
  match as_entry item with
  | Some entry => entry_fails fs entry
  | None => true
  end.


Definition items_chunks (fs : gmap string file) (items : list yaml) : list Document :=
  concat (map (item_chunks fs) items).

Definition items_failed (fs : gmap string file) (items : list yaml) : Z :=
  Z.of_nat (length (filter (λ item, item_fails fs item = true) items)).

Definition items_successful (fs : gmap string file) (items : list yaml) : Z :=
  Z.of_nat (length (filter (λ item, item_fails fs item = false) items)).

(** The file is no manifest: the parser raises on it, or what it parses
    to has no length. *)
Definition no_manifest (f : file) : Prop :=
  match yaml_safe_load f with
  | None => True
  | Some doc => py_len doc = Raise TypeError
  end.

(** The manifest at [manifest_path] is read and the loop goes through
    [items]. *)
Definition manifest_items (fs : gmap string file) (manifest_path : string)
    (items : list yaml) : Prop :=
  ∃ doc, fs !! manifest_path = Some (YamlDoc doc) ∧ py_iter doc = Return items.

(** ** Scenarios *)

(** Scenario A: one manifest entry with id [dga_2020] and topic [sodium];
    page 1 is a table of contents, page 2 is about sodium. *)
Definition scenario_A_entry : ManifestEntry :=
  {| entry_id := "dga_2020"; entry_path := "x.pdf";
     entry_source := None; entry_topics := Some (YSeq [YStr "sodium"]) |}.

Definition scenario_A_pages : list extract_result :=
  [ Extracted (Some "Table of Contents ... page iv");
    Extracted (Some ("Sodium daily value 2300 mg adults limit. "
                     +:+ "Sodium daily value 2300 mg adults limit.")) ].

Definition scenario_A_fs : gmap string file :=
  <["manifest.yaml" := YamlFile [scenario_A_entry]]> {[ "x.pdf" := PdfFile scenario_A_pages ]}.

(** Scenario B: the manifest of scenario A with a second entry whose file
    is not there. *)
Definition scenario_B_missing : ManifestEntry :=
  {| entry_id := "who_sugar"; entry_path := "missing.pdf";
     entry_source := Some "WHO"; entry_topics := None |}.

Definition scenario_B_fs : gmap string file :=
  <["manifest.yaml" := YamlFile [scenario_B_missing; scenario_A_entry]]> scenario_A_fs.

(** Scenario B with an item that has no [id] in place of the entry: only
    the path of a file that is not there. *)
Definition nameless_item : yaml := YMap {[ "path" := YStr "missing.pdf" ]}.

Definition nameless_fs : gmap string file :=
  <["manifest.yaml" := YamlDoc (YSeq [nameless_item; entry_yaml scenario_A_entry])]>
    scenario_A_fs.

(** U+00A0, a blank that is not ASCII. *)
Definition no_break_space : string :=
  String (ascii_of_N 194) (String (ascii_of_N 160) EmptyString).

(** Scenario C: a chunk that is nothing but a citation line. *)
Definition citation_chunk (md : gmap string pyval) : Document :=
  {| page_content := "Suggested citation: USDA (2020)."; metadata := md |}.

Definition keyed_metadata (page : Z) : gmap string pyval :=
  <["source" := VStr "dga_2020"]> {[ "page" := VInt page ]}.

Definition sodium_chunk (page : Z) : Document :=
  {| page_content := "Adults should limit sodium and added sugar.";
     metadata := keyed_metadata page |}.

Definition scenario_C_docs : list Document :=
  [sodium_chunk 21; citation_chunk (keyed_metadata 3); sodium_chunk 22].

(** A manifest whose only entry has no file. *)
Definition all_failed_fs : gmap string file :=
  {[ "manifest.yaml" := YamlFile [scenario_B_missing] ]}.

(** ** Validation mode and the path checker *)

(** The "Safety check" of the [__main__] block:
    [all('safety_level' in doc.metadata for doc in documents)]. *)
Definition safety_check (documents : list Document) : bool :=
  forallb (λ doc, bool_decide (is_Some (metadata doc !! "safety_level"))) documents.

(** [path_validator.py], once the manifest is read: the lines it prints,
    one per entry, with the path as the manifest writes it. *)
Definition path_validator_lines (fs : gmap string file) (corpus : list ManifestEntry)
  : list string :=
  map (λ doc,
         match fs !! entry_path doc with
         | None => "❌ MISSING: " +:+ entry_id doc +:+ " at " +:+ entry_path doc
         | Some _ => "✅ FOUND: " +:+ entry_id doc
         end) corpus.

(** ** More vocabulary *)

(** An ASCII character that is not whitespace. *)
Definition visible (c : ascii) : bool :=
  (Py.code c <? 128)%N && negb (Py.is_space1 c).

Fixpoint has_visible (s : string) : bool :=
  match s with
  | EmptyString => false
  | String c s' => visible c || has_visible s'
  end.

Fixpoint last_char (c : ascii) (s : string) : ascii :=
  match s with
  | EmptyString => c
  | String d s' => last_char d s'
  end.

(** [t] does not start in the middle of a character. *)
Definition starts_clean (t : string) : bool :=
  match t with
  | EmptyString => true
  | String c _ => negb (Py.is_continuation c)
  end.

(** A term that [strip] cannot cut into, whatever is around it: it starts
    at a character that is not whitespace, and none of its ends can be the
    start of a run of whitespace. *)
Definition solid (term : string) : Prop :=
  term ≠ EmptyString ∧ starts_clean term = true
  ∧ (∀ post, Py.skip_space (term +:+ post) = None)
  ∧ (∀ t1 t2 post, term = t1 +:+ t2 → t2 ≠ EmptyString → blank (t2 +:+ post) = false).

(** A term that starts and ends with a visible character. *)
Definition tidy (term : string) : bool :=
  match term with
  | EmptyString => false
  | String c s => visible c && visible (last_char c s)
  end.






(** The text a page hands to the pipeline: [page.extract_text() or ""]. *)
Definition page_text (page : extract_result) : option string :=
  match page with
  | Extracted extracted => Some (default "" extracted)
  | ExtractRaises => None
  end.

(** The markers around a detected table. *)
Definition wrapped (text : string) : string :=
  "[NUTRIENT_TABLE_START]" +:+ TableProcessor.newline +:+ text
  +:+ TableProcessor.newline +:+ "[NUTRIENT_TABLE_END]".

(** The file of an entry is there and is a PDF. *)
Definition has_pdf (fs : gmap string file) (entry : ManifestEntry) : bool :=
  match fs !! entry_path entry with
  | Some (PdfFile _) => true
  | _ => false
  end.


(** The character [c] is somewhere in [s]. *)
Fixpoint has_char (c : ascii) (s : string) : bool :=
  match s with
  | EmptyString => false
  | String x s' => Ascii.eqb x c || has_char c s'
  end.

(** * Properties *)

(** ** Substrings *)

Module PyFacts.

Lemma append_cons c s t : String c s +:+ t = String c (s +:+ t).
Proof. reflexivity. Qed.

Lemma append_nil_l s : EmptyString +:+ s = s.
Proof. reflexivity. Qed.

Lemma prefix_spec needle hay :
  String.prefix needle hay = true ↔ ∃ post, hay = needle +:+ post.
Proof.
  revert hay. induction needle as [|a needle IH]; intros hay; simpl.
  - destruct hay; simpl; split; eauto.
  - destruct hay as [|b hay]; simpl.
    + split; [discriminate | intros [post H]; discriminate].
    + destruct (ascii_dec a b) as [->|Hne].
      * rewrite IH. split; intros [post H]; exists post;
          rewrite append_cons in *; congruence.
      * split; [discriminate | intros [post H]; rewrite append_cons in H; congruence].
Qed.

Lemma contains_nil needle :
  Py.contains needle EmptyString = String.prefix needle EmptyString.
Proof. simpl. apply orb_false_r. Qed.

Lemma contains_cons needle c hay :
  Py.contains needle (String c hay)
  = String.prefix needle (String c hay) || Py.contains needle hay.
Proof. reflexivity. Qed.

Lemma contains_spec needle hay :
  Py.contains needle hay = true ↔ Substring needle hay.
Proof.
  unfold Substring. induction hay as [|c hay IH].
  - rewrite contains_nil, prefix_spec. split.
    + intros [post H]. exists EmptyString, post. exact H.
    + intros ([|? pre] & post & H); [eauto | discriminate].
  - rewrite contains_cons, orb_true_iff, prefix_spec, IH. split.
    + intros [[post H] | (pre & post & H)].
      * exists EmptyString, post. exact H.
      * exists (String c pre), post. rewrite append_cons. congruence.
    + intros ([|c' pre] & post & H).
      * left. eauto.
      * right. exists pre, post. rewrite append_cons in H. congruence.
Qed.

Lemma contains_false needle hay :
  Py.contains needle hay = false ↔ ¬ Substring needle hay.
Proof. rewrite <- contains_spec. destruct (Py.contains needle hay); naive_solver. Qed.

Lemma any_in_spec terms text :
  Py.any_in terms text = true ↔ ∃ t, t ∈ terms ∧ Substring t text.
Proof.
  unfold Py.any_in. rewrite existsb_exists. split.
  - intros (t & Hin & Hc). exists t. rewrite list_elem_of_In, <- contains_spec. auto.
  - intros (t & Hin & Hc). exists t. rewrite <- list_elem_of_In, contains_spec. auto.
Qed.

Lemma any_in_lower terms text :
  Py.any_in terms (Py.lower text) = true ↔ mentions terms text.
Proof. apply any_in_spec. Qed.

Lemma any_in_lower_false terms text :
  Py.any_in terms (Py.lower text) = false ↔ ¬ mentions terms text.
Proof.
  rewrite <- any_in_lower. destruct (Py.any_in terms (Py.lower text)); naive_solver.
Qed.

Lemma count_in_nonneg terms text : 0 <= Py.count_in terms text.
Proof. unfold Py.count_in. lia. Qed.

(** A positive count comes from a term that occurs. *)
Lemma count_in_pos terms text :
  1 <= Py.count_in terms text → ∃ t, t ∈ terms ∧ Substring t text.
Proof.
  unfold Py.count_in. intros H.
  destruct (filter (λ t, Py.contains t text = true) terms) as [|t l] eqn:E.
  - simpl in H. lia.
  - exists t. assert (Ht : t ∈ filter (λ t, Py.contains t text = true) terms).
    { rewrite E. left. }
    apply list_elem_of_filter in Ht as [Hc Hin]. by rewrite <- contains_spec.
Qed.

Lemma count_in_zero terms text :
  (∀ t, t ∈ terms → ¬ Substring t text) → Py.count_in terms text = 0.
Proof.
  intros H. pose proof (count_in_nonneg terms text).
  destruct (Z_lt_le_dec (Py.count_in terms text) 1) as [|Hpos]; [lia|].
  apply count_in_pos in Hpos as (t & Hin & Hs). destruct (H t Hin Hs).
Qed.


(** *** Whitespace and [strip] *)

Lemma append_assoc (a b c : string) : (a +:+ b) +:+ c = a +:+ b +:+ c.
Proof. induction a as [|x a IH]; [reflexivity|]. rewrite !append_cons. by rewrite IH. Qed.

Lemma append_nil_r (a : string) : a +:+ EmptyString = a.
Proof. induction a as [|x a IH]; [reflexivity|]. rewrite append_cons. by rewrite IH. Qed.

Lemma Substring_refl s : Substring s s.
Proof. exists EmptyString, EmptyString. by rewrite append_nil_l, append_nil_r. Qed.

Lemma Substring_trans a b c : Substring a b → Substring b c → Substring a c.
Proof.
  intros (p1 & q1 & ->) (p2 & q2 & ->).
  exists (p2 +:+ p1), (q1 +:+ q2). by rewrite !append_assoc.
Qed.

Lemma string_strong_ind (P : string → Prop) :
  (∀ s, (∀ t, (String.length t < String.length s)%nat → P t) → P s) → ∀ s, P s.
Proof.
  intros H s. remember (String.length s) as n eqn:E. revert s E.
  induction n as [n IH] using lt_wf_ind. intros s ->.
  apply H. intros t Ht. by apply (IH _ Ht).
Qed.

Lemma is_space2_continuation c d :
  Py.is_space2 c d = true → Py.is_continuation d = true ∧ (128 <= Py.code c)%N.
Proof.
  unfold Py.is_space2, Py.is_continuation.
  rewrite !andb_true_iff, orb_true_iff, !N.eqb_eq, N.leb_le, N.ltb_lt. lia.
Qed.

Lemma is_space3_continuation c d e :
  Py.is_space3 c d e = true →
  Py.is_continuation d = true ∧ Py.is_continuation e = true ∧ (128 <= Py.code c)%N.
Proof.
  unfold Py.is_space3, Py.is_continuation.
  rewrite !orb_true_iff, !andb_true_iff, !orb_true_iff, !andb_true_iff, !N.eqb_eq,
    !N.leb_le, !N.ltb_lt. lia.
Qed.

Lemma is_space2_clean c d : Py.is_continuation d = false → Py.is_space2 c d = false.
Proof.
  intros H. destruct (Py.is_space2 c d) eqn:E; [|done].
  apply is_space2_continuation in E as [E _]. congruence.
Qed.

Lemma is_space3_clean_2 c d e : Py.is_continuation d = false → Py.is_space3 c d e = false.
Proof.
  intros H. destruct (Py.is_space3 c d e) eqn:E; [|done].
  apply is_space3_continuation in E as (E & _ & _). congruence.
Qed.

Lemma is_space3_clean_3 c d e : Py.is_continuation e = false → Py.is_space3 c d e = false.
Proof.
  intros H. destruct (Py.is_space3 c d e) eqn:E; [|done].
  apply is_space3_continuation in E as (_ & E & _). congruence.
Qed.

Lemma visible_high c : (128 <= Py.code c)%N → visible c = false.
Proof. unfold visible. intros H. apply N.ltb_ge in H. by rewrite H. Qed.

Lemma visible_continuation c : Py.is_continuation c = true → visible c = false.
Proof.
  unfold Py.is_continuation. rewrite andb_true_iff, N.leb_le. intros [H _].
  by apply visible_high.
Qed.

Lemma visible_space c : Py.is_space1 c = true → visible c = false.
Proof. unfold visible. intros ->. apply andb_false_r. Qed.

(** A visible character starts no whitespace character. *)
Lemma skip_space_visible c s : visible c = true → Py.skip_space (String c s) = None.
Proof.
  intros H. unfold Py.skip_space.
  assert (H1 : Py.is_space1 c = false).
  { destruct (Py.is_space1 c) eqn:E; [|done]. apply visible_space in E. congruence. }
  assert (Hc : (Py.code c < 128)%N).
  { unfold visible in H. apply andb_true_iff in H as [H _]. by apply N.ltb_lt. }
  rewrite H1. destruct s as [|d s]; [done|].
  destruct (Py.is_space2 c d) eqn:E2.
  { apply is_space2_continuation in E2. lia. }
  destruct s as [|e s]; [done|].
  destruct (Py.is_space3 c d e) eqn:E3; [|done].
  apply is_space3_continuation in E3. lia.
Qed.

Lemma skip_space_split s r :
  Py.skip_space s = Some r →
  ∃ w, s = w +:+ r ∧ w ≠ EmptyString ∧ has_visible w = false
       ∧ (String.length r < String.length s)%nat.
Proof.
  unfold Py.skip_space. destruct s as [|c s1]; [done|].
  destruct (Py.is_space1 c) eqn:E1.
  { intros [= <-]. exists (String c EmptyString). repeat split; [done | | simpl; lia].
    simpl. by rewrite (visible_space _ E1). }
  destruct s1 as [|d s2]; [done|].
  destruct (Py.is_space2 c d) eqn:E2.
  { intros [= <-]. exists (String c (String d EmptyString)).
    apply is_space2_continuation in E2 as [Hd Hc].
    repeat split; [done | | simpl; lia].
    simpl. by rewrite (visible_high _ Hc), (visible_continuation _ Hd). }
  destruct s2 as [|e s3]; [done|].
  destruct (Py.is_space3 c d e) eqn:E3; [|done].
  intros [= <-]. exists (String c (String d (String e EmptyString))).
  apply is_space3_continuation in E3 as (Hd & He & Hc).
  repeat split; [done | | simpl; lia].
  simpl. by rewrite (visible_high _ Hc), (visible_continuation _ Hd),
    (visible_continuation _ He).
Qed.

Lemma skip_space_app_Some x r t :
  Py.skip_space x = Some r → Py.skip_space (x +:+ t) = Some (r +:+ t).
Proof.
  unfold Py.skip_space. destruct x as [|c x1]; [done|]. rewrite append_cons.
  destruct (Py.is_space1 c); [by intros [= <-]|].
  destruct x1 as [|d x2]; [done|]. rewrite append_cons.
  destruct (Py.is_space2 c d); [by intros [= <-]|].
  destruct x2 as [|e x3]; [done|]. rewrite append_cons.
  destruct (Py.is_space3 c d e); [by intros [= <-]|done].
Qed.

Lemma starts_clean_cons d t :
  starts_clean (String d t) = true → Py.is_continuation d = false.
Proof. simpl. by intros ->%negb_true_iff. Qed.

Lemma skip_space_app_None x t :
  Py.skip_space x = None → x ≠ EmptyString → starts_clean t = true →
  Py.skip_space (x +:+ t) = None.
Proof.
  unfold Py.skip_space. destruct x as [|c x1]; [done|]. intros H _ Ht.
  rewrite append_cons. destruct (Py.is_space1 c); [done|].
  destruct x1 as [|d x2].
  { rewrite append_nil_l. destruct t as [|d t]; [done|].
    apply starts_clean_cons in Ht. rewrite (is_space2_clean _ _ Ht).
    destruct t as [|e t]; [done|]. by rewrite (is_space3_clean_2 _ _ _ Ht). }
  rewrite append_cons. destruct (Py.is_space2 c d); [done|].
  destruct x2 as [|e x3].
  { rewrite append_nil_l. destruct t as [|e t]; [done|].
    apply starts_clean_cons in Ht. by rewrite (is_space3_clean_3 _ _ _ Ht). }
  rewrite append_cons. by destruct (Py.is_space3 c d e).
Qed.

Lemma blank_eq s :
  blank s = match Py.skip_space s with
            | Some r => blank r
            | None => match s with EmptyString => true | _ => false end
            end.
Proof.
  destruct s as [|c [|d [|e s]]]; [done|..]; unfold Py.skip_space.
  - change (blank (String c EmptyString)) with (if Py.is_space1 c then true else false).
    by destruct (Py.is_space1 c).
  - change (blank (String c (String d EmptyString)))
      with (if Py.is_space1 c then blank (String d EmptyString)
            else if Py.is_space2 c d then true else false).
    by destruct (Py.is_space1 c), (Py.is_space2 c d).
  - change (blank (String c (String d (String e s))))
      with (if Py.is_space1 c then blank (String d (String e s))
            else if Py.is_space2 c d then blank (String e s)
            else if Py.is_space3 c d e then blank s else false).
    by destruct (Py.is_space1 c), (Py.is_space2 c d), (Py.is_space3 c d e).
Qed.

Lemma lstrip_eq s :
  Py.lstrip s = match Py.skip_space s with
                | Some r => Py.lstrip r
                | None => s
                end.
Proof.
  destruct s as [|c [|d [|e s]]]; [done|..]; unfold Py.skip_space.
  - change (Py.lstrip (String c EmptyString))
      with (if Py.is_space1 c then EmptyString else String c EmptyString).
    by destruct (Py.is_space1 c).
  - change (Py.lstrip (String c (String d EmptyString)))
      with (if Py.is_space1 c then Py.lstrip (String d EmptyString)
            else if Py.is_space2 c d then EmptyString
            else String c (String d EmptyString)).
    by destruct (Py.is_space1 c), (Py.is_space2 c d).
  - change (Py.lstrip (String c (String d (String e s))))
      with (if Py.is_space1 c then Py.lstrip (String d (String e s))
            else if Py.is_space2 c d then Py.lstrip (String e s)
            else if Py.is_space3 c d e then Py.lstrip s
            else String c (String d (String e s))).
    by destruct (Py.is_space1 c), (Py.is_space2 c d), (Py.is_space3 c d e).
Qed.

Lemma rstrip_cons c s :
  Py.rstrip (String c s) = if blank (String c s) then EmptyString else String c (Py.rstrip s).
Proof. reflexivity. Qed.

Lemma starts_clean_app t u :
  t ≠ EmptyString → starts_clean (t +:+ u) = starts_clean t.
Proof. destruct t; [done|]. by rewrite append_cons. Qed.

(** A run of whitespace cannot end inside [t] when [t] starts at a
    character. *)
Lemma blank_app x t :
  starts_clean t = true → blank (x +:+ t) = blank x && blank t.
Proof.
  intros Ht. induction x as [x IH] using string_strong_ind.
  rewrite (blank_eq (x +:+ t)), (blank_eq x).
  destruct (Py.skip_space x) as [r|] eqn:E.
  - rewrite (skip_space_app_Some _ _ t E).
    apply skip_space_split in E as (_ & _ & _ & _ & Hlen). by apply IH.
  - destruct x as [|c x]; [by rewrite append_nil_l, <- blank_eq|].
    rewrite skip_space_app_None; [by rewrite append_cons | done | done | done].
Qed.

Lemma lstrip_app x t :
  starts_clean t = true →
  Py.lstrip (x +:+ t) = if blank x then Py.lstrip t else Py.lstrip x +:+ t.
Proof.
  intros Ht. induction x as [x IH] using string_strong_ind.
  rewrite (lstrip_eq (x +:+ t)), (blank_eq x), (lstrip_eq x).
  destruct (Py.skip_space x) as [r|] eqn:E.
  - rewrite (skip_space_app_Some _ _ t E).
    apply skip_space_split in E as (_ & _ & _ & _ & Hlen). by apply IH.
  - destruct x as [|c x]; [by rewrite append_nil_l, <- lstrip_eq|].
    by rewrite skip_space_app_None.
Qed.

Lemma rstrip_app a b :
  starts_clean b = true →
  Py.rstrip (a +:+ b) = if blank b then Py.rstrip a else a +:+ Py.rstrip b.
Proof.
  intros Hb. induction a as [|c a IH].
  - rewrite append_nil_l. destruct (blank b) eqn:B; [|done].
    destruct b as [|d b]; [done|]. by rewrite rstrip_cons, B.
  - rewrite append_cons, !rstrip_cons, <- append_cons, blank_app, IH by done.
    destruct (blank b); [by rewrite andb_true_r|].
    by rewrite andb_false_r, append_cons.
Qed.

Lemma blank_lstrip s : blank (Py.lstrip s) = blank s.
Proof.
  induction s as [s IH] using string_strong_ind.
  rewrite (lstrip_eq s), (blank_eq s).
  destruct (Py.skip_space s) as [r|] eqn:E.
  - apply skip_space_split in E as (_ & _ & _ & _ & Hlen). by apply IH.
  - rewrite blank_eq, E. done.
Qed.

Lemma lstrip_suffix s : ∃ pre, s = pre +:+ Py.lstrip s.
Proof.
  induction s as [s IH] using string_strong_ind. rewrite lstrip_eq.
  destruct (Py.skip_space s) as [r|] eqn:E.
  - apply skip_space_split in E as (w & -> & _ & _ & Hlen).
    destruct (IH r Hlen) as [pre Hpre]. exists (w +:+ pre).
    rewrite append_assoc. by rewrite <- Hpre.
  - by exists EmptyString.
Qed.

Lemma rstrip_prefix s : ∃ post, s = Py.rstrip s +:+ post.
Proof.
  induction s as [|c s [post IH]]; [by exists EmptyString|].
  rewrite rstrip_cons. destruct (blank (String c s)).
  - by exists (String c s).
  - exists post. rewrite append_cons. by rewrite <- IH.
Qed.

Lemma strip_Substring s : Substring (Py.strip s) s.
Proof.
  unfold Py.strip. destruct (lstrip_suffix s) as [pre H1].
  destruct (rstrip_prefix (Py.lstrip s)) as [post H2].
  exists pre, post. by rewrite <- H2.
Qed.

Lemma rstrip_empty s : Py.rstrip s = EmptyString ↔ blank s = true.
Proof.
  destruct s as [|c s]; [done|]. rewrite rstrip_cons.
  destruct (blank (String c s)); split; done.
Qed.

Lemma strip_empty s : Py.strip s = EmptyString ↔ blank s = true.
Proof. unfold Py.strip. by rewrite rstrip_empty, blank_lstrip. Qed.

(** *** Visible characters *)

Lemma has_visible_app a b : has_visible (a +:+ b) = has_visible a || has_visible b.
Proof.
  induction a as [|c a IH]; [done|]. rewrite append_cons. simpl.
  rewrite IH. apply orb_assoc.
Qed.

(** A blank string has no visible character. *)
Lemma blank_has_visible s : blank s = true → has_visible s = false.
Proof.
  induction s as [s IH] using string_strong_ind. rewrite blank_eq.
  destruct (Py.skip_space s) as [r|] eqn:E.
  - apply skip_space_split in E as (w & -> & _ & Hw & Hlen). intros Hr.
    by rewrite has_visible_app, Hw, (IH r Hlen Hr).
  - by destruct s.
Qed.

Lemma has_visible_Substring a b :
  Substring a b → has_visible a = true → has_visible b = true.
Proof.
  intros (p & q & ->) Ha. rewrite !has_visible_app, Ha. apply orb_true_r.
Qed.

Lemma visible_lower_char c : visible (Py.lower_char c) = visible c.
Proof.
  destruct c as [[] [] [] [] [] [] [] []]; reflexivity.
Qed.

Lemma has_visible_lower s : has_visible (Py.lower s) = has_visible s.
Proof. induction s as [|c s IH]; [done|]. simpl. by rewrite visible_lower_char, IH. Qed.

(** If the lower-case text contains a term with a visible character, the
    text is not blank. *)
Lemma strip_nonempty text t :
  has_visible t = true → Substring t (Py.lower text) → Py.strip text ≠ EmptyString.
Proof.
  intros Ht Hs. rewrite strip_empty.
  pose proof (has_visible_Substring _ _ Hs Ht) as Hv.
  rewrite has_visible_lower in Hv.
  destruct (blank text) eqn:B; [|done]. apply blank_has_visible in B. congruence.
Qed.

(** *** Terms that [strip] cannot cut into *)

Lemma last_char_app c s t d :
  last_char c (s +:+ String d t) = last_char d t.
Proof.
  revert c. induction s as [|x s IH]; intros c; [done|].
  rewrite append_cons. simpl. apply IH.
Qed.

Lemma has_visible_last c s : visible (last_char c s) = true → has_visible (String c s) = true.
Proof.
  revert c. induction s as [|d s IH]; intros c H; simpl in *.
  - by rewrite H.
  - rewrite (IH d H). apply orb_true_r.
Qed.

Lemma tidy_solid term : tidy term = true → solid term.
Proof.
  destruct term as [|c s]; [done|]. simpl. intros [Hc Hl]%andb_true_iff.
  split; [done|]. split.
  { simpl. unfold visible, Py.is_continuation in *.
    apply andb_true_iff in Hc as [Hc _]. apply N.ltb_lt in Hc.
    apply negb_true_iff, andb_false_iff. left. apply N.leb_gt. lia. }
  split.
  { intros post. rewrite append_cons. by apply skip_space_visible. }
  intros t1 t2 post Heq Hne.
  destruct (blank (t2 +:+ post)) eqn:B; [|done].
  apply blank_has_visible in B. rewrite has_visible_app in B.
  apply orb_false_iff in B as [B _].
  destruct t2 as [|d t2]; [done|].
  assert (Hlast : last_char c s = last_char d t2).
  { destruct t1 as [|x t1].
    - rewrite append_nil_l in Heq. by injection Heq as -> ->.
    - rewrite append_cons in Heq. injection Heq as -> ->. apply last_char_app. }
  rewrite Hlast in Hl. apply has_visible_last in Hl. congruence.
Qed.

(** The copyright sign, U+00A9. *)
Lemma copyright_sign_solid : solid "©".
Proof.
  split; [done|]. split; [done|]. split.
  { intros [|e post]; reflexivity. }
  intros t1 t2 post Heq Hne.
  destruct t1 as [|x [|y t1]].
  - rewrite append_nil_l in Heq. subst t2. by destruct post as [|e post].
  - rewrite append_cons, append_nil_l in Heq. injection Heq as <- <-.
    by destruct post as [|e [|f post]].
  - rewrite !append_cons in Heq. injection Heq as _ _ Heq.
    destruct t1, t2; done.
Qed.

(** [strip] does not cut into an occurrence of a solid term. *)
Lemma Substring_strip term s :
  solid term → Substring term s → Substring term (Py.strip s).
Proof.
  intros (Hne & Hc & Hskip & Hblank) (pre & post & ->). unfold Py.strip.
  assert (Hc' : starts_clean (term +:+ post) = true) by by rewrite starts_clean_app.
  assert (B : blank (term +:+ post) = false).
  { apply (Hblank EmptyString term post); [by rewrite append_nil_l | done]. }
  assert (Hl : ∃ pre', Py.lstrip (pre +:+ term +:+ post) = pre' +:+ term +:+ post).
  { rewrite lstrip_app by done. destruct (blank pre).
    - exists EmptyString. by rewrite lstrip_eq, Hskip, append_nil_l.
    - by exists (Py.lstrip pre). }
  destruct Hl as [pre' ->].
  rewrite rstrip_app, B by done.
  assert (Hr : ∀ t1 t2, term = t1 +:+ t2 →
                 ∃ post', Py.rstrip (t2 +:+ post) = t2 +:+ post').
  { intros t1 t2. revert t1. induction t2 as [|d t2 IH]; intros t1 Heq.
    - exists (Py.rstrip post). by rewrite append_nil_l.
    - rewrite append_cons, rstrip_cons, <- append_cons.
      rewrite (Hblank t1 (String d t2) post Heq) by done.
      destruct (IH (t1 +:+ String d EmptyString)) as [post' Hp].
      { by rewrite append_assoc. }
      exists post'. rewrite append_cons. by rewrite Hp. }
  destruct (Hr EmptyString term) as [post' ->]; [by rewrite append_nil_l|].
  by exists pre', post'.
Qed.

Lemma contains_strip term s :
  solid term → Py.contains term (Py.strip s) = Py.contains term s.
Proof.
  intros Ht. apply eq_true_iff_eq. rewrite !contains_spec. split.
  - intros H. eapply Substring_trans; [exact H | apply strip_Substring].
  - by apply Substring_strip.
Qed.

Lemma count_in_strip terms s :
  forallb tidy terms = true → Py.count_in terms (Py.strip s) = Py.count_in terms s.
Proof.
  intros H. unfold Py.count_in. f_equal. f_equal.
  induction terms as [|t terms IH]; [done|].
  simpl in H. apply andb_true_iff in H as [Ht H].
  rewrite !filter_cons, (contains_strip t s (tidy_solid _ Ht)), (IH H). done.
Qed.

End PyFacts.

Lemma Return_inj {A : Type} (a b : A) : Return a = Return b → a = b.
Proof. by intros [= ->]. Qed.


(** ** The page-admission filter *)

Section LowValuePage.

Import PyFacts.

Lemma icontains_true t text :
  Py.contains t (Py.lower text) = true ↔ icontains t text.
Proof. apply contains_spec. Qed.

Lemma icontains_false t text :
  Py.contains t (Py.lower text) = false ↔ ¬ icontains t text.
Proof. apply contains_false. Qed.

(** What is found in the stripped lower-case text is found in the
    lower-case text. *)
Lemma contains_strip_lower t text :
  Py.contains t (Py.strip (Py.lower text)) = true → icontains t text.
Proof.
  rewrite contains_spec. intros H.
  exact (Substring_trans _ _ _ H (strip_Substring _)).
Qed.

Lemma nutrition_keywords_visible :
  ∀ kw, kw ∈ ContentFilter.NUTRITION_KEYWORDS → has_visible kw = true.
Proof.
  intros kw Hin.
  assert (H : forallb has_visible ContentFilter.NUTRITION_KEYWORDS = true)
    by reflexivity.
  rewrite forallb_forall in H. by apply list_elem_of_In, H in Hin.
Qed.

(** A page with a nutrition keyword is not empty after [strip]. *)
Lemma keyword_page_not_blank text :
  1 <= nutrition_keyword_count text → Py.strip text ≠ EmptyString.
Proof.
  intros H. apply count_in_pos in H as (kw & Hin & Hs).
  eapply strip_nonempty; [|exact Hs].
  by apply nutrition_keywords_visible.
Qed.

Local Ltac no_copyright Hcopy :=
  let C1 := fresh "C" in
  let C2 := fresh "C" in
  let C3 := fresh "C" in
  destruct (Py.contains "copyright" _ || Py.contains "©" _) eqn:C1; [|done];
  destruct (Py.contains "reserved" _) eqn:C2; [|done];
  destruct (page_word_count _ <? 300) eqn:C3; [|done];
  exfalso; apply Hcopy; apply Z.ltb_lt in C3; apply orb_true_iff in C1;
  split; [destruct C1; [left | right] | ]; auto using contains_strip_lower.

(** Past page 20 only the empty-text test, the table-of-contents test
    and the copyright test are left, whatever count is passed in. *)
Lemma is_low_value_page_past_20 text page_num total_pages nutrition_matches :
  20 < page_num →
  Py.strip text ≠ EmptyString →
  ¬ (icontains "table of contents" text ∧ icontains "page" text
     ∧ page_word_count text < 500) →
  ¬ ((icontains "copyright" text ∨ icontains "©" text) ∧ icontains "reserved" text
     ∧ page_word_count text < 300) →
  ContentFilter.is_low_value_page text page_num total_pages nutrition_matches = false.
Proof.
  intros Hpage Hstrip Htoc Hcopy. unfold ContentFilter.is_low_value_page.
  assert (E1 : String.eqb text "" = false).
  { apply String.eqb_neq. intros ->. by apply Hstrip. }
  assert (E2 : (Z.of_nat (String.length (Py.strip text)) =? 0) = false).
  { apply Z.eqb_neq. destruct (Py.strip text); [done | simpl; lia]. }
  rewrite E1, E2. simpl.
  replace (page_num <=? 15) with false by (symmetry; apply Z.leb_gt; lia).
  replace (page_num <=? 20) with false by (symmetry; apply Z.leb_gt; lia).
  simpl. fold (page_word_count text).
  destruct (Py.contains "table of contents" _) eqn:T1; simpl; [|no_copyright Hcopy].
  destruct (Py.contains "page" _) eqn:T2; simpl; [|no_copyright Hcopy].
  destruct (page_word_count text <? 500) eqn:T3; [|no_copyright Hcopy].
  exfalso. apply Htoc. apply Z.ltb_lt in T3. auto using contains_strip_lower.
Qed.

(** C5: a page past page 20 with three or more nutrition keywords whose
    non-empty text matches no administrative phrase, is no table of
    contents ("table of contents" and "page" in fewer than 500 words) and
    no copyright notice ("copyright" or the copyright sign, and
    "reserved", in fewer than 300 words) is admitted:
    [is_low_value_page] returns false.  The count is the page's own, the
    one the pipeline passes; past page 15 the administrative phrases are
    not consulted, so that hypothesis is not needed by the proof. *)
Theorem is_low_value_page_admits text page_num total_pages :
  20 < page_num →
  3 <= nutrition_keyword_count text →
  text ≠ EmptyString →
  ¬ mentions ContentFilter.USDA_ADMIN_PATTERNS text →
  ¬ (icontains "table of contents" text ∧ icontains "page" text
     ∧ page_word_count text < 500) →
  ¬ ((icontains "copyright" text ∨ icontains "©" text) ∧ icontains "reserved" text
     ∧ page_word_count text < 300) →
  ContentFilter.is_low_value_page text page_num total_pages
    (nutrition_keyword_count text) = false.
Proof.
  intros Hpage Hcount _ _ Htoc Hcopy.
  apply is_low_value_page_past_20; auto.
  apply keyword_page_not_blank. lia.
Qed.

Lemma is_low_value_page_admits_witness :
  ContentFilter.is_low_value_page "Adults should limit sodium and added sugar." 21 100
    (nutrition_keyword_count "Adults should limit sodium and added sugar.") = false.
Proof.
  apply is_low_value_page_admits.
  - lia.
  - vm_compute. discriminate.
  - discriminate.
  - apply any_in_lower_false. reflexivity.
  - intros [H _]. apply icontains_true in H. discriminate.
  - intros [_ [H _]]. apply icontains_true in H. discriminate.
Defined.

End LowValuePage.

(** ** Nutrient tables *)

Section NutrientTables.

Import PyFacts.




(** The count in the test is the number of indicator terms that occur. *)
Lemma detect_nutrient_tables_count text :
  TableProcessor.detect_nutrient_tables text
  = (2 <=? Py.count_in TableProcessor.nutrient_indicators (Py.lower text))
    && negb (Py.any_in TableProcessor.non_nutrient_indicators (Py.lower text)).
Proof. reflexivity. Qed.

Example disqualifier_wins :
  TableProcessor.detect_nutrient_tables
    "Figure 2: calcium, potassium and fiber, % daily value" = false.
Proof. reflexivity. Qed.

Example two_indicators_detected :
  TableProcessor.detect_nutrient_tables "Calcium and potassium, milligrams per day" = true.
Proof. reflexivity. Qed.

Lemma extract_table_content_unchanged text :
  TableProcessor.detect_nutrient_tables text = false →
  TableProcessor.extract_table_content text = text.
Proof. unfold TableProcessor.extract_table_content. by intros ->. Qed.

End NutrientTables.

(** ** Life stages *)

Section LifeStages.

Import PyFacts.



End LifeStages.

(** ** The per-document pipeline *)

Section Pipeline.

Import PyFacts.

(** A page yields a chunk exactly when its text was extracted and the
    filter admits it; the chunk then carries [page_metadata]. *)
Lemma process_page_Some entry doc_type total_pages page_num page doc :
  process_page entry doc_type total_pages page_num page = Some doc ↔
  ∃ extracted,
    let text := default "" extracted in
    page = Extracted extracted
    ∧ ContentFilter.is_low_value_page text page_num total_pages
        (nutrition_keyword_count text) = false
    ∧ page_content doc = TableProcessor.extract_table_content text
    ∧ metadata doc = to_dict (page_metadata entry doc_type page_num text).
Proof.
  unfold process_page, page_metadata, nutrition_keyword_count. split.
  - destruct page as [extracted|]; [|discriminate].
    destruct (ContentFilter.is_low_value_page _ _ _ _) eqn:E; [discriminate|].
    intros [= <-]. exists extracted. simpl. repeat split; try done.
    unfold TableProcessor.extract_table_content.
    by destruct (TableProcessor.detect_nutrient_tables _).
  - intros (extracted & -> & E & Hc & Hm). simpl in *. rewrite E.
    destruct doc as [pc md]. simpl in *. subst. do 2 f_equal.
    unfold TableProcessor.extract_table_content.
    by destruct (TableProcessor.detect_nutrient_tables _).
Qed.

Lemma to_dict_safety_level m : to_dict m !! "safety_level" = Some (VStr (safety_level m)).
Proof. reflexivity. Qed.
Lemma to_dict_life_stages m : to_dict m !! "life_stages" = Some (VList (life_stages m)).
Proof. reflexivity. Qed.
Lemma to_dict_document_type m : to_dict m !! "document_type" = Some (VStr (document_type m)).
Proof. reflexivity. Qed.
Lemma to_dict_source m : to_dict m !! "source" = Some (VStr (source_id m)).
Proof. reflexivity. Qed.
Lemma to_dict_page m : to_dict m !! "page" = Some (VInt (page_number m)).
Proof. reflexivity. Qed.

(** The chunks of a page range are the chunks of its pages, each with
    its own page number. *)
Lemma elem_of_process_pages entry doc_type total_pages first pages doc :
  doc ∈ process_pages entry doc_type total_pages first pages ↔
  ∃ (k : nat) page,
    pages !! k = Some page
    ∧ process_page entry doc_type total_pages (first + Z.of_nat k) page = Some doc.
Proof.
  revert first. induction pages as [|page pages IH]; intros first; simpl.
  - split; [by intros ?%elem_of_nil | by intros (k & ? & ? & _)].
  - rewrite elem_of_app, IH. split.
    + intros [H | (k & pg & Hk & Hp)].
      * exists 0%nat, page. split; [done|]. rewrite Z.add_0_r.
        destruct (process_page _ _ _ first page); simpl in H;
          [by apply list_elem_of_singleton in H; subst | by apply elem_of_nil in H].
      * exists (S k), pg. split; [done|].
        by replace (first + Z.of_nat (S k)) with (first + 1 + Z.of_nat k) by lia.
    + intros ([|k] & pg & Hk & Hp); simpl in Hk.
      * left. injection Hk as ->. rewrite Z.add_0_r in Hp. rewrite Hp. by left.
      * right. exists k, pg. split; [done|].
        by replace (first + 1 + Z.of_nat k) with (first + Z.of_nat (S k)) by lia.
Qed.

(** Every chunk of a document comes from one of its pages, admitted by
    the filter, and carries that page's metadata. *)
Lemma process_single_document_chunk fs entry docs doc :
  process_single_document fs entry = Return docs →
  doc ∈ docs →
  ∃ pages (k : nat) extracted,
    let text := default "" extracted in
    let page_num := 1 + Z.of_nat k in
    fs !! entry_path entry = Some (PdfFile pages)
    ∧ pages !! k = Some (Extracted extracted)
    ∧ ContentFilter.is_low_value_page text page_num (Z.of_nat (length pages))
        (nutrition_keyword_count text) = false
    ∧ page_content doc = TableProcessor.extract_table_content text
    ∧ metadata doc
      = to_dict (page_metadata entry (doc_type_of (entry_id entry)) page_num text).
Proof.
  unfold process_single_document.
  destruct (fs !! entry_path entry) as [[corpus|pages|]|] eqn:E; try discriminate.
  intros [= <-] Hin.
  apply elem_of_process_pages in Hin as (k & page & Hk & Hp).
  apply process_page_Some in Hp as (extracted & -> & Hlow & Hc & Hm).
  exists pages, k, extracted. simpl. auto.
Qed.

End Pipeline.

(** ** Safety level, life stages and document type of a chunk *)

Section Classification.

Import PyFacts.

(** The three outcomes of the safety-level computation on a page with
    three or more keywords. *)
Lemma safety_level_of_cases nutrition_matches text :
  3 <= nutrition_matches →
  safety_level_of nutrition_matches (Py.lower text)
  = if Py.any_in professional_triggers (Py.lower text) then "professional_use_only"
    else if Py.any_in medical_triggers (Py.lower text) then "medical_caution"
    else "general".
Proof.
  intros H. unfold safety_level_of.
  replace (nutrition_matches <? 3) with false by (symmetry; apply Z.ltb_ge; lia).
  by destruct (Py.any_in medical_triggers _), (Py.any_in professional_triggers _).
Qed.

(** C1: on an admitted page with three or more nutrition keywords, a
    professional-use trigger gives [professional_use_only], also when a
    medical trigger is there (never [medical_caution] then); a medical
    trigger without a professional one gives [medical_caution]; neither
    gives [general]. *)
Theorem safety_level_precedence entry doc_type total_pages page_num text doc :
  process_page entry doc_type total_pages page_num (Extracted (Some text)) = Some doc →
  3 <= nutrition_keyword_count text →
  let level := metadata doc !! "safety_level" in
  (mentions medical_triggers text → mentions professional_triggers text →
     level = Some (VStr "professional_use_only")
     ∧ level ≠ Some (VStr "medical_caution"))
  ∧ (mentions professional_triggers text → level = Some (VStr "professional_use_only"))
  ∧ (mentions medical_triggers text → ¬ mentions professional_triggers text →
     level = Some (VStr "medical_caution"))
  ∧ (¬ mentions medical_triggers text → ¬ mentions professional_triggers text →
     level = Some (VStr "general")).
Proof.
  intros Hp Hcount.
  apply process_page_Some in Hp as (extracted & [= <-] & _ & _ & Hm). simpl in Hm.
  simpl. rewrite Hm, to_dict_safety_level. simpl.
  rewrite (safety_level_of_cases _ _ Hcount).
  repeat split.
  - apply any_in_lower in H0. by rewrite H0.
  - apply any_in_lower in H0. by rewrite H0.
  - intros H. apply any_in_lower in H. by rewrite H.
  - intros H1 H2. apply any_in_lower in H1. apply any_in_lower_false in H2.
    by rewrite H1, H2.
  - intros H1 H2. apply any_in_lower_false in H1, H2. by rewrite H1, H2.
Qed.

Lemma safety_level_precedence_witness :
  ∃ doc,
    process_page scenario_A_entry "core_guideline" 40 25
      (Extracted (Some "Pregnant adults: ask a healthcare provider about sodium."))
    = Some doc
    ∧ metadata doc !! "safety_level" = Some (VStr "professional_use_only")
    ∧ metadata doc !! "safety_level" ≠ Some (VStr "medical_caution").
Proof.
  destruct (process_page scenario_A_entry "core_guideline" 40 25
              (Extracted (Some "Pregnant adults: ask a healthcare provider about sodium.")))
    as [doc|] eqn:E; [|vm_compute in E; discriminate].
  exists doc. split; [reflexivity|].
  refine (proj1 (safety_level_precedence _ _ _ _ _ doc E _) _ _).
  - vm_compute. discriminate.
  - apply any_in_lower. reflexivity.
  - apply any_in_lower. reflexivity.
Defined.

(** Below three keywords the level is [administrative]. *)
Lemma safety_level_of_administrative nutrition_matches text_lower :
  nutrition_matches < 3 → safety_level_of nutrition_matches text_lower = "administrative".
Proof.
  intros H. unfold safety_level_of.
  by replace (nutrition_matches <? 3) with true by (symmetry; apply Z.ltb_lt; lia).
Qed.



End Classification.

(** ** Document type *)

Section DocumentType.

Import PyFacts.

Lemma doc_type_of_nutrient id :
  mentions nutrient_id_terms id → doc_type_of id = "nutrient_specific".
Proof. intros H. apply any_in_lower in H. unfold doc_type_of. by rewrite H. Qed.

Lemma doc_type_of_summary id :
  ¬ mentions nutrient_id_terms id →
  icontains "summary" id ∨ icontains "executive" id →
  doc_type_of id = "summary".
Proof.
  intros H1 H2. apply any_in_lower_false in H1.
  unfold doc_type_of. rewrite H1.
  rewrite <- !icontains_true, <- orb_true_iff in H2. by rewrite H2.
Qed.

Lemma doc_type_of_core id :
  ¬ mentions nutrient_id_terms id →
  ¬ icontains "summary" id → ¬ icontains "executive" id →
  doc_type_of id = "core_guideline".
Proof.
  intros H1 H2 H3. apply any_in_lower_false in H1. apply icontains_false in H2, H3.
  unfold doc_type_of. by rewrite H1, H2, H3.
Qed.

(** All chunks of a document carry the type computed from its id. *)
Lemma chunk_document_type fs entry docs doc :
  process_single_document fs entry = Return docs → doc ∈ docs →
  metadata doc !! "document_type" = Some (VStr (doc_type_of (entry_id entry))).
Proof.
  intros Hdocs Hin.
  destruct (process_single_document_chunk _ _ _ _ Hdocs Hin)
    as (pages & k & extracted & _ & _ & _ & _ & Hm).
  by rewrite Hm, to_dict_document_type.
Qed.

(** C4, as the code has it: the document type comes from the manifest id
    alone, by the precedence nutrient terms, then "summary" or
    "executive", then [core_guideline]; every chunk of a document carries
    it; and the id [dga_2020] contains none of the terms, so its chunks
    are [core_guideline] whatever the topics of the entry are. *)
Theorem document_type_from_id :
  (∀ id, mentions nutrient_id_terms id → doc_type_of id = "nutrient_specific")
  ∧ (∀ id, ¬ mentions nutrient_id_terms id →
           icontains "summary" id ∨ icontains "executive" id →
           doc_type_of id = "summary")
  ∧ (∀ id, ¬ mentions nutrient_id_terms id →
           ¬ icontains "summary" id → ¬ icontains "executive" id →
           doc_type_of id = "core_guideline")
  ∧ (∀ fs entry docs doc,
        process_single_document fs entry = Return docs → doc ∈ docs →
        metadata doc !! "document_type" = Some (VStr (doc_type_of (entry_id entry))))
  ∧ (∀ fs entry docs doc,
        entry_id entry = "dga_2020" →
        process_single_document fs entry = Return docs → doc ∈ docs →
        metadata doc !! "document_type" = Some (VStr "core_guideline")).
Proof.
  split; [exact doc_type_of_nutrient|].
  split; [exact doc_type_of_summary|].
  split; [exact doc_type_of_core|].
  split; [exact chunk_document_type|].
  intros fs entry docs doc Hid Hdocs Hin.
  rewrite (chunk_document_type _ _ _ _ Hdocs Hin), Hid. reflexivity.
Qed.

Lemma document_type_from_id_witness :
  doc_type_of "Sodium_Factsheet" = "nutrient_specific"
  ∧ doc_type_of "DGA_Executive_Summary" = "summary"
  ∧ doc_type_of "dga_2020" = "core_guideline"
  ∧ ∃ docs doc,
      process_single_document scenario_A_fs scenario_A_entry = Return docs ∧ doc ∈ docs
      ∧ metadata doc !! "document_type" = Some (VStr "core_guideline").
Proof.
  destruct document_type_from_id as (H1 & H2 & H3 & _ & H5).
  split; [|split; [|split]].
  - apply H1. apply any_in_lower. reflexivity.
  - apply H2; [apply any_in_lower_false; reflexivity|].
    left. apply icontains_true. reflexivity.
  - apply H3; [apply any_in_lower_false | apply icontains_false ..]; reflexivity.
  - destruct (process_single_document scenario_A_fs scenario_A_entry)
      as [[|doc docs]|] eqn:E; try (vm_compute in E; discriminate).
    exists (doc :: docs), doc. split; [reflexivity|]. split; [left|].
    apply (H5 scenario_A_fs scenario_A_entry (doc :: docs) doc eq_refl E). left.
Defined.

(** C4 as stated fails on scenario A: the entry has id [dga_2020] and
    topic [sodium], page 2 is admitted, and its chunk is not
    [nutrient_specific]. *)
Lemma dga_2020_not_nutrient_specific :
  ¬ (∀ docs doc,
       process_single_document scenario_A_fs scenario_A_entry = Return docs → doc ∈ docs →
       metadata doc !! "document_type" = Some (VStr "nutrient_specific")).
Proof.
  intros H.
  destruct (process_single_document scenario_A_fs scenario_A_entry)
    as [[|doc docs]|] eqn:E; try (vm_compute in E; discriminate).
  pose proof (H _ doc eq_refl (list_elem_of_here _ _)) as Hn.
  rewrite (chunk_document_type _ _ _ _ E (list_elem_of_here _ _)) in Hn.
  vm_compute in Hn. discriminate.
Qed.

(** What scenario A yields: page 1 is skipped, page 2 is the only chunk. *)
Example scenario_A_chunks :
  (λ d, (metadata d !! "page", metadata d !! "document_type",
         metadata d !! "safety_level", metadata d !! "life_stages",
         metadata d !! "topics"))
    <$> default [] (match process_single_document scenario_A_fs scenario_A_entry with
                    | Return docs => Some docs | Raise _ => None end)
  = [(Some (VInt 2), Some (VStr "core_guideline"), Some (VStr "general"),
      Some (VList ["adults"]), Some (VList ["sodium"]))].
Proof. vm_compute. reflexivity. Qed.

End DocumentType.

(** ** The corpus validator *)

Section Validator.

Import PyFacts.







Lemma validate_from_returns i docs :
  Forall chunk_keys_present docs → ∃ ps, validate_from i docs = Return ps.
Proof.
  intros H. revert i. induction H as [|doc docs [[s Hs] [p Hp]] _ IH]; intros i; simpl.
  - eauto.
  - destruct (IH (S i)) as [ps Hps]. rewrite Hps.
    destruct (is_flagged doc); [|eauto].
    unfold getitem. rewrite Hs, Hp. simpl. eauto.
Qed.

(** The positions recorded in the tuples are the positions of the
    flagged documents. *)
Lemma validate_from_indices i docs ps :
  validate_from i docs = Return ps →
  ∀ j, j ∈ map prob_index ps ↔
       ∃ (k : nat) d, j = (i + k)%nat ∧ docs !! k = Some d ∧ is_flagged d = true.
Proof.
  revert i ps. induction docs as [|doc docs IH]; intros i ps; simpl.
  - intros [= <-] j. simpl. split; [by intros ?%elem_of_nil | by intros (k & d & _ & ? & _)].
  - destruct (is_flagged doc) eqn:F.
    + destruct (getitem (metadata doc) "source") as [src|]; [|discriminate].
      destruct (getitem (metadata doc) "page") as [pg|]; [|discriminate]. simpl.
      destruct (validate_from (S i) docs) as [ps'|] eqn:E; [|discriminate].
      simpl. intros [= <-] j. simpl. rewrite elem_of_cons, (IH _ _ E). split.
      * intros [-> | (k & d & -> & Hk & Hd)].
        -- exists 0%nat, doc. split; [lia | done].
        -- exists (S k), d. split; [lia | done].
      * intros ([|k] & d & -> & Hk & Hd); simpl in Hk.
        -- left. lia.
        -- right. exists k, d. split; [lia | done].
    + intros E j. rewrite (IH _ _ E). split.
      * intros (k & d & -> & Hk & Hd). exists (S k), d. split; [lia | done].
      * intros ([|k] & d & -> & Hk & Hd); simpl in Hk.
        -- congruence.
        -- exists k, d. split; [lia | done].
Qed.

(** Dropping the positions of the flagged documents is filtering the
    flagged documents out. *)
Lemma remove_positions (S : gset nat) i docs :
  (∀ (k : nat) d, docs !! k = Some d → ((i + k)%nat ∈ S ↔ is_flagged d = true)) →
  map snd (filter (λ p, fst p ∉ S) (enumerate_from i docs)) = survivors docs.
Proof.
  unfold survivors. revert i. induction docs as [|doc docs IH]; intros i H; [done|].
  simpl. rewrite !filter_cons. simpl.
  assert (IH' : map snd (filter (λ p, p.1 ∉ S) (enumerate_from (Datatypes.S i) docs))
                = filter (λ doc, is_flagged doc = false) docs).
  { apply IH. intros k d Hk. rewrite <- (H (Datatypes.S k) d Hk).
    by replace (Datatypes.S i + k)%nat with (i + Datatypes.S k)%nat by lia. }
  pose proof (H 0%nat doc eq_refl) as H0. rewrite Nat.add_0_r in H0.
  destruct (decide (i ∉ S)) as [Hi|Hi], (decide (is_flagged doc = false)) as [Hf|Hf];
    simpl; rewrite ?IH'; try done.
  - exfalso. apply Hi, H0. by destruct (is_flagged doc).
  - exfalso. apply Hi. intros Hin. apply H0 in Hin. congruence.
Qed.

Lemma remove_problematic_spec docs ps :
  validate_processed_chunks docs = Return ps →
  remove_problematic ps docs = survivors docs.
Proof.
  intros H. unfold remove_problematic. apply remove_positions.
  intros k d Hk. rewrite elem_of_list_to_set, (validate_from_indices _ _ _ H). split.
  - intros (k' & d' & Hkk & Hk' & Hd'). simpl in Hkk. subst k'. congruence.
  - intros Hd. by exists k, d.
Qed.

Lemma survivors_none_flagged docs :
  Forall (λ d, is_flagged d = false) docs → survivors docs = docs.
Proof.
  intros H. unfold survivors. induction H as [|d docs Hd _ IH]; [done|].
  rewrite filter_cons. destruct (decide (is_flagged d = false)); congruence.
Qed.

Lemma no_problem_no_flag docs :
  validate_processed_chunks docs = Return [] → survivors docs = docs.
Proof.
  intros H. apply survivors_none_flagged, Forall_forall. intros d Hin.
  apply list_elem_of_lookup in Hin as [k Hk].
  destruct (is_flagged d) eqn:F; [|done]. exfalso.
  assert (Hj : (0 + k)%nat ∈ map prob_index (@nil problem)).
  { apply (validate_from_indices _ _ _ H). by exists k, d. }
  simpl in Hj. by apply elem_of_nil in Hj.
Qed.

Lemma problem_has_flag docs p ps :
  validate_processed_chunks docs = Return (p :: ps) →
  ∃ d, d ∈ docs ∧ is_flagged d = true.
Proof.
  intros H.
  assert (Hj : prob_index p ∈ map prob_index (p :: ps)) by (simpl; left).
  apply (validate_from_indices _ _ _ H) in Hj as (k & d & _ & Hk & Hd).
  exists d. split; [|done]. apply list_elem_of_lookup. eauto.
Qed.

(** What the validation block does when the flagging itself returns. *)
Lemma validate_and_clean_returning docs ps :
  validate_processed_chunks docs = Return ps →
  validate_and_clean docs
  = match survivors docs, docs with
    | [], _ :: _ => Raise integrity_error
    | kept, _ => Return kept
    end.
Proof.
  intros H. unfold validate_and_clean. rewrite H. destruct ps as [|p ps].
  - rewrite (no_problem_no_flag _ H). by destruct docs.
  - rewrite (remove_problematic_spec _ _ H).
    destruct (problem_has_flag _ _ _ H) as (d & Hin & _).
    destruct docs as [|d0 docs]; [by apply elem_of_nil in Hin|].
    by destruct (survivors (d0 :: docs)).
Qed.

Lemma validate_and_clean_raising docs e :
  validate_processed_chunks docs = Raise e → validate_and_clean docs = Return docs.
Proof. intros H. unfold validate_and_clean. by rewrite H. Qed.

Lemma validate_and_clean_with_keys docs :
  Forall chunk_keys_present docs →
  validate_and_clean docs
  = match survivors docs, docs with
    | [], _ :: _ => Raise integrity_error
    | kept, _ => Return kept
    end.
Proof.
  intros H. destruct (validate_from_returns 0 docs H) as [ps Hps].
  by apply validate_and_clean_returning with ps.
Qed.

(** The integrity error is the only one, and it means that the input
    was not empty and every chunk of it was flagged. *)
Lemma validate_and_clean_Raise docs e :
  validate_and_clean docs = Raise e →
  e = integrity_error ∧ docs ≠ [] ∧ survivors docs = []
  ∧ ∃ d, d ∈ docs ∧ is_flagged d = true.
Proof.
  destruct (validate_processed_chunks docs) as [ps|e'] eqn:V.
  - rewrite (validate_and_clean_returning _ _ V).
    destruct (survivors docs) as [|k kept] eqn:S; [|by destruct docs].
    destruct docs as [|d docs]; [discriminate|].
    intros [= <-]. repeat split; [done|].
    exists d. split; [left|]. destruct (is_flagged d) eqn:F; [done|].
    assert (Hin : d ∈ survivors (d :: docs)).
    { apply list_elem_of_filter. split; [done | left]. }
    rewrite S in Hin. by apply elem_of_nil in Hin.
  - rewrite (validate_and_clean_raising _ _ V). discriminate.
Qed.

Lemma validate_and_clean_nonempty docs :
  docs ≠ [] → validate_and_clean docs ≠ Return [].
Proof.
  intros Hne. destruct (validate_processed_chunks docs) as [ps|e'] eqn:V.
  - rewrite (validate_and_clean_returning _ _ V).
    destruct (survivors docs), docs; congruence.
  - rewrite (validate_and_clean_raising _ _ V). congruence.
Qed.

Lemma survivors_all_flagged docs :
  Forall (λ d, is_flagged d = true) docs → survivors docs = [].
Proof.
  intros H. unfold survivors. induction H as [|d docs Hd _ IH]; [done|].
  rewrite filter_cons. destruct (decide (is_flagged d = false)); [congruence | done].
Qed.

End Validator.

(** ** The loop over the manifest *)

Section Loader.

Variable fs : gmap string file.


Lemma entry_chunks_failed entry : entry_fails fs entry = true → entry_chunks fs entry = [].
Proof.
  unfold entry_fails, entry_chunks.
  by destruct (process_single_document fs entry).
Qed.

(** An entry is read back from the mapping it is written as. *)
Lemma as_entry_yaml entry : as_entry (entry_yaml entry) = Some entry.
Proof. by destruct entry as [id path [source|] [topics|]]. Qed.

Lemma entry_yaml_carries_id entry : carries_id (entry_yaml entry).
Proof. exists (YStr (entry_id entry)). by destruct entry as [id path [source|] [topics|]]. Qed.

(** The [try] body returns exactly when the item describes an entry whose
    document is processed. *)
Lemma try_entry_Return item docs :
  try_entry fs item = Return docs
  ↔ ∃ entry, as_entry item = Some entry ∧ process_single_document fs entry = Return docs.
Proof.
  unfold try_entry, py_getitem, as_entry. destruct item as [| | | | |fields];
    try (split; [done | by intros (? & ? & ?)]).
  destruct (fields !! "path") as [path|]; simpl.
  2: { split; [done|]. intros (entry & H & _). by destruct (fields !! "id") as [[]|]. }
  destruct path as [| | |path| |]; simpl;
    try (split; [done | intros (entry & H & _); by destruct (fields !! "id") as [[]|]]).
  destruct (fields !! "id") as [id|] eqn:Eid.
  2: { destruct (fs !! path) as [[]|]; (split; [done | by intros (? & ? & ?)]). }
  destruct id as [| | |id| |];
    try (destruct (fs !! path) as [[]|]; (split; [done | by intros (? & ? & ?)])).
  destruct (fs !! path) as [f|] eqn:Ef.
  - split; [eauto|]. by intros (entry & [= <-] & H).
  - split; [done|]. intros (entry & [= <-] & H).
    unfold process_single_document in H. simpl in H. by rewrite Ef in H.
Qed.

Lemma try_entry_item item :
  match try_entry fs item with
  | Return docs => item_fails fs item = false ∧ item_chunks fs item = docs
  | Raise _ => item_fails fs item = true ∧ item_chunks fs item = []
  end.
Proof.
  unfold item_fails, item_chunks, entry_fails, entry_chunks.
  destruct (try_entry fs item) as [docs|e] eqn:E.
  - apply try_entry_Return in E as (entry & -> & ->). done.
  - destruct (as_entry item) as [entry|] eqn:Ea; [|done].
    destruct (process_single_document fs entry) as [docs|] eqn:Ep; [|done].
    assert (H : try_entry fs item = Return docs) by (apply try_entry_Return; eauto).
    congruence.
Qed.

(** One iteration on an item with an [id]: a failure is counted and adds
    nothing, a success is counted and appends the chunks of the entry. *)
Lemma load_item_spec st item :
  carries_id item →
  load_item fs st item
  = Return (if item_fails fs item
            then {| all_documents := all_documents st;
                    successful_docs := successful_docs st;
                    failed_docs := failed_docs st + 1 |}
            else {| all_documents := all_documents st ++ item_chunks fs item;
                    successful_docs := successful_docs st + 1;
                    failed_docs := failed_docs st |}).
Proof.
  intros [v Hv]. unfold load_item. rewrite Hv.
  pose proof (try_entry_item item) as H.
  destruct (try_entry fs item); destruct H as [H1 H2]; rewrite H1, ?H2; done.
Qed.

Lemma item_chunks_failed item : item_fails fs item = true → item_chunks fs item = [].
Proof.
  unfold item_fails, item_chunks. destruct (as_entry item); [|done].
  apply entry_chunks_failed.
Qed.

Lemma load_items_spec items st :
  Forall carries_id items →
  load_items fs st items
  = Return {| all_documents := all_documents st ++ items_chunks fs items;
              successful_docs := successful_docs st + items_successful fs items;
              failed_docs := failed_docs st + items_failed fs items |}.
Proof.
  unfold items_chunks, items_successful, items_failed.
  intros Hids. revert st. induction Hids as [|item items Hid _ IH]; intros st.
  - destruct st. simpl. by rewrite app_nil_r, !Z.add_0_r.
  - cbn [load_items]. rewrite (load_item_spec _ _ Hid). cbn [bind].
    rewrite IH, !filter_cons.
    destruct (item_fails fs item) eqn:F; simpl.
    + rewrite (item_chunks_failed _ F). simpl. do 2 f_equal. lia.
    + rewrite <- app_assoc. do 2 f_equal. lia.
Qed.

Lemma items_chunks_entries corpus :
  items_chunks fs (entry_yaml <$> corpus) = corpus_chunks fs corpus.
Proof.
  unfold items_chunks, corpus_chunks, item_chunks. f_equal.
  induction corpus as [|entry corpus IH]; [done|].
  rewrite fmap_cons. cbn [map]. by rewrite as_entry_yaml, IH.
Qed.

Lemma items_failed_entries corpus :
  items_failed fs (entry_yaml <$> corpus) = count_failed fs corpus.
Proof.
  unfold items_failed, count_failed, item_fails. f_equal.
  induction corpus as [|entry corpus IH]; [done|].
  rewrite fmap_cons, !filter_cons, as_entry_yaml.
  destruct (entry_fails fs entry); simpl; by rewrite IH.
Qed.

Lemma items_successful_entries corpus :
  items_successful fs (entry_yaml <$> corpus) = count_successful fs corpus.
Proof.
  unfold items_successful, count_successful, item_fails. f_equal.
  induction corpus as [|entry corpus IH]; [done|].
  rewrite fmap_cons, !filter_cons, as_entry_yaml.
  destruct (entry_fails fs entry); simpl; by rewrite IH.
Qed.

Lemma entries_carry_id corpus : Forall carries_id (entry_yaml <$> corpus).
Proof. apply Forall_fmap, Forall_forall. intros entry _. apply entry_yaml_carries_id. Qed.

(** On a manifest of entries the loop runs to its end. *)
Lemma load_items_entries corpus :
  load_items fs initial_state (entry_yaml <$> corpus)
  = Return {| all_documents := corpus_chunks fs corpus;
              successful_docs := count_successful fs corpus;
              failed_docs := count_failed fs corpus |}.
Proof.
  rewrite load_items_spec by apply entries_carry_id.
  by rewrite items_chunks_entries, items_failed_entries, items_successful_entries.
Qed.

Lemma load_entries_spec corpus :
  load_entries fs corpus
  = {| all_documents := corpus_chunks fs corpus;
       successful_docs := count_successful fs corpus;
       failed_docs := count_failed fs corpus |}.
Proof. unfold load_entries. by rewrite load_items_entries. Qed.

(** Every entry is counted once, as a success or as a failure. *)
Lemma load_entries_counts corpus :
  successful_docs (load_entries fs corpus) + failed_docs (load_entries fs corpus)
  = Z.of_nat (length corpus).
Proof.
  rewrite load_entries_spec. simpl. unfold count_successful, count_failed.
  induction corpus as [|entry corpus IH]; [done|].
  rewrite !filter_cons. destruct (entry_fails fs entry); simpl in *; lia.
Qed.

Lemma corpus_chunks_app c1 c2 :
  corpus_chunks fs (c1 ++ c2) = corpus_chunks fs c1 ++ corpus_chunks fs c2.
Proof. unfold corpus_chunks. by rewrite map_app, concat_app. Qed.

Lemma count_failed_app c1 c2 :
  count_failed fs (c1 ++ c2) = count_failed fs c1 + count_failed fs c2.
Proof. unfold count_failed. rewrite filter_app, length_app. lia. Qed.

Lemma count_successful_app c1 c2 :
  count_successful fs (c1 ++ c2) = count_successful fs c1 + count_successful fs c2.
Proof. unfold count_successful. rewrite filter_app, length_app. lia. Qed.

Lemma entry_chunks_keys entry : Forall chunk_keys_present (entry_chunks fs entry).
Proof.
  apply Forall_forall. intros d Hd. unfold entry_chunks in Hd.
  destruct (process_single_document fs entry) as [docs|] eqn:E; [|by apply elem_of_nil in Hd].
  destruct (process_single_document_chunk _ _ _ _ E Hd)
    as (pages & k & extracted & _ & _ & _ & _ & Hm).
  unfold chunk_keys_present. rewrite Hm, to_dict_source, to_dict_page. eauto.
Qed.

(** The chunks of the aggregate are chunks of documents, so they have
    the keys the validator reads. *)
Lemma items_chunks_keys items : Forall chunk_keys_present (items_chunks fs items).
Proof.
  unfold items_chunks. apply Forall_concat, Forall_forall.
  intros docs (item & -> & _)%list_elem_of_fmap. unfold item_chunks.
  destruct (as_entry item); [apply entry_chunks_keys | constructor].
Qed.

Lemma corpus_chunks_keys corpus : Forall chunk_keys_present (corpus_chunks fs corpus).
Proof. rewrite <- items_chunks_entries. apply items_chunks_keys. Qed.

(** The whole run on a manifest that is a sequence of items with an
    [id]. *)
Lemma load_and_preprocess_documents_items manifest_path items :
  fs !! manifest_path = Some (YamlDoc (YSeq items)) →
  Forall carries_id items →
  load_and_preprocess_documents fs manifest_path
  = match survivors (items_chunks fs items), items_chunks fs items with
    | [], _ :: _ => Raise integrity_error
    | kept, _ => Return kept
    end.
Proof.
  intros H Hids. unfold load_and_preprocess_documents. rewrite H.
  cbn [yaml_safe_load py_len py_iter bind]. rewrite (load_items_spec _ _ Hids).
  cbn [bind all_documents initial_state app].
  apply validate_and_clean_with_keys, items_chunks_keys.
Qed.

Lemma load_and_preprocess_documents_entries manifest_path corpus :
  fs !! manifest_path = Some (YamlFile corpus) →
  load_and_preprocess_documents fs manifest_path
  = validate_and_clean (all_documents (load_entries fs corpus)).
Proof.
  intros H. unfold load_and_preprocess_documents. rewrite H.
  cbn [YamlFile yaml_safe_load py_len py_iter bind].
  by rewrite load_entries_spec, load_items_entries.
Qed.

(** The whole run, once the manifest is read. *)
Lemma load_and_preprocess_documents_spec manifest_path corpus :
  fs !! manifest_path = Some (YamlFile corpus) →
  load_and_preprocess_documents fs manifest_path
  = match survivors (corpus_chunks fs corpus), corpus_chunks fs corpus with
    | [], _ :: _ => Raise integrity_error
    | kept, _ => Return kept
    end.
Proof.
  intros H. rewrite <- items_chunks_entries.
  apply load_and_preprocess_documents_items; [exact H | apply entries_carry_id].
Qed.

End Loader.

(** ** The run as a whole *)

Section Run.

Import PyFacts.

Local Ltac keys_present :=
  repeat (constructor; [split; eexists; reflexivity|]); constructor.

(** C2: the validation step never returns the empty list for a
    non-empty chunk list; when every chunk is flagged it raises the
    integrity error instead, for any chunks that carry their source and
    page and so for the aggregate of any manifest. *)
Theorem validator_never_returns_empty docs :
  docs ≠ [] →
  validate_and_clean docs ≠ Return []
  ∧ (Forall chunk_keys_present docs → Forall (λ d, is_flagged d = true) docs →
     validate_and_clean docs = Raise integrity_error)
  ∧ (∀ fs manifest_path corpus,
       fs !! manifest_path = Some (YamlFile corpus) →
       all_documents (load_entries fs corpus) = docs →
       load_and_preprocess_documents fs manifest_path ≠ Return []
       ∧ (Forall (λ d, is_flagged d = true) docs →
          load_and_preprocess_documents fs manifest_path = Raise integrity_error)).
Proof.
  intros Hne. split; [by apply validate_and_clean_nonempty|].
  assert (Hall : Forall chunk_keys_present docs → Forall (λ d, is_flagged d = true) docs →
                 validate_and_clean docs = Raise integrity_error).
  { intros Hkeys Hflag. rewrite (validate_and_clean_with_keys _ Hkeys).
    rewrite (survivors_all_flagged _ Hflag). by destruct docs. }
  split; [exact Hall|].
  intros fs manifest_path corpus Hm Hdocs.
  rewrite (load_and_preprocess_documents_entries _ _ _ Hm), Hdocs.
  split; [by apply validate_and_clean_nonempty|].
  apply Hall. rewrite <- Hdocs, load_entries_spec. apply corpus_chunks_keys.
Qed.

Lemma validator_never_returns_empty_witness :
  validate_and_clean [citation_chunk (keyed_metadata 3)] ≠ Return []
  ∧ validate_and_clean [citation_chunk (keyed_metadata 3)] = Raise integrity_error.
Proof.
  assert (Hne : [citation_chunk (keyed_metadata 3)] ≠ []) by discriminate.
  destruct (validator_never_returns_empty _ Hne) as (H1 & H2 & _).
  split; [exact H1|]. apply H2; [keys_present|].
  constructor; [reflexivity | constructor].
Defined.



(** C9: when the flagging computation raises, the validation block of
    [load_and_preprocess_documents] returns the aggregate as it is:
    nothing is removed and nothing is raised. *)
Theorem validation_failure_falls_back docs e :
  validate_processed_chunks docs = Raise e →
  validate_and_clean docs = Return docs.
Proof. apply validate_and_clean_raising. Qed.

Lemma validation_failure_falls_back_witness :
  validate_processed_chunks [sodium_chunk 21; citation_chunk ∅] = Raise (KeyError "source")
  ∧ validate_and_clean [sodium_chunk 21; citation_chunk ∅]
    = Return [sodium_chunk 21; citation_chunk ∅].
Proof.
  assert (H : validate_processed_chunks [sodium_chunk 21; citation_chunk ∅]
              = Raise (KeyError "source")) by reflexivity.
  split; [exact H|]. exact (validation_failure_falls_back _ _ H).
Defined.

(** C10: with the manifest read, an empty aggregate is returned as it
    is, without an error; the run raises only the integrity error, and
    only when the aggregate is not empty, has a flagged chunk, and
    nothing of it is left unflagged. *)
Theorem empty_aggregate_returns_empty fs manifest_path corpus :
  fs !! manifest_path = Some (YamlFile corpus) →
  (all_documents (load_entries fs corpus) = [] →
   load_and_preprocess_documents fs manifest_path = Return [])
  ∧ (∀ e, load_and_preprocess_documents fs manifest_path = Raise e →
       e = integrity_error
       ∧ all_documents (load_entries fs corpus) ≠ []
       ∧ (∃ d, d ∈ all_documents (load_entries fs corpus) ∧ is_flagged d = true)
       ∧ survivors (all_documents (load_entries fs corpus)) = []).
Proof.
  intros Hm. rewrite (load_and_preprocess_documents_entries _ _ _ Hm). split.
  - by intros ->.
  - intros e He. apply validate_and_clean_Raise in He as (-> & Hne & Hs & Hd). auto.
Qed.

Lemma empty_aggregate_returns_empty_witness :
  all_documents (load_entries all_failed_fs [scenario_B_missing]) = []
  ∧ load_and_preprocess_documents all_failed_fs "manifest.yaml" = Return [].
Proof.
  assert (H : all_documents (load_entries all_failed_fs [scenario_B_missing]) = [])
    by reflexivity.
  split; [exact H|].
  exact (proj1 (empty_aggregate_returns_empty all_failed_fs "manifest.yaml"
                  [scenario_B_missing] eq_refl) H).
Defined.

End Run.

(** ** Failing documents *)

Section DocumentFailure.








End DocumentFailure.

(** * Further properties of the code *)

(** ** [strip] and the terms of the filter *)

Section StripTerms.

Import PyFacts.

Lemma count_in_positive terms s :
  (1 <=? Py.count_in terms s) = Py.any_in terms s.
Proof.
  apply eq_true_iff_eq. rewrite Z.leb_le, any_in_spec. split.
  - apply count_in_pos.
  - intros (t & Hin & Hs). destruct (Z_lt_le_dec (Py.count_in terms s) 1) as [Hlt|]; [|done].
    exfalso. unfold Py.count_in in Hlt.
    assert (Ht : t ∈ filter (λ t, Py.contains t s = true) terms).
    { apply list_elem_of_filter. by rewrite contains_spec. }
    destruct (filter _ terms); [by apply elem_of_nil in Ht | simpl in Hlt; lia].
Qed.

(** The filter as a Boolean formula over the lower-case text. *)
Lemma is_low_value_page_formula text page_num total_pages nutrition_matches :
  ContentFilter.is_low_value_page text page_num total_pages nutrition_matches
  = blank text
    || (page_num <=? 15) && Py.any_in ContentFilter.USDA_ADMIN_PATTERNS (Py.lower text)
    || (page_num <=? 20) && (nutrition_matches <? 3)
    || Py.contains "table of contents" (Py.lower text) && Py.contains "page" (Py.lower text)
       && (page_word_count text <? 500)
    || (Py.contains "copyright" (Py.lower text) || Py.contains "©" (Py.lower text))
       && Py.contains "reserved" (Py.lower text) && (page_word_count text <? 300).
Proof.
  unfold ContentFilter.is_low_value_page. fold (page_word_count text).
  assert (E : String.eqb text "" || (Z.of_nat (String.length (Py.strip text)) =? 0)
              = blank text).
  { apply eq_true_iff_eq. rewrite orb_true_iff, String.eqb_eq, Z.eqb_eq, <- strip_empty.
    split.
    - intros [-> | H]; [done|]. destruct (Py.strip text); [done | simpl in H; lia].
    - intros ->. by right. }
  rewrite E. destruct (blank text); [done|]. simpl.
  rewrite count_in_strip, count_in_positive by reflexivity.
  rewrite (contains_strip "table of contents"), (contains_strip "page"),
    (contains_strip "copyright"), (contains_strip "reserved") by (by apply tidy_solid).
  rewrite (contains_strip "©") by apply copyright_sign_solid.
  destruct ((page_num <=? 15) && _); [done|]. simpl.
  destruct ((page_num <=? 20) && _); [done|]. simpl.
  destruct (Py.contains "table of contents" _ && Py.contains "page" _ && _); [done|]. simpl.
  by destruct ((Py.contains "copyright" _ || Py.contains "©" _) && _ && _).
Qed.

End StripTerms.

(** ** The page filter, rule by rule *)

Section FilterRules.

Import PyFacts.

(** X1: a page whose text is empty or only whitespace is low-value on
    every page number and with every keyword count. *)
Theorem is_low_value_page_blank text page_num total_pages nutrition_matches :
  blank text = true →
  ContentFilter.is_low_value_page text page_num total_pages nutrition_matches = true.
Proof. intros H. by rewrite is_low_value_page_formula, H. Qed.

Lemma is_low_value_page_blank_witness :
  ContentFilter.is_low_value_page
    (" " +:+ TableProcessor.newline +:+ no_break_space +:+ "  ") 40 100 7 = true.
Proof. apply is_low_value_page_blank. reflexivity. Defined.

(** X2: on pages 1 to 15 a single administrative phrase anywhere in the
    text, inside a longer word too, makes the page low-value, however
    many nutrition keywords it has. *)
Theorem is_low_value_page_front_matter text page_num total_pages nutrition_matches :
  page_num <= 15 →
  mentions ContentFilter.USDA_ADMIN_PATTERNS text →
  ContentFilter.is_low_value_page text page_num total_pages nutrition_matches = true.
Proof.
  intros Hp Hm. rewrite is_low_value_page_formula.
  apply any_in_lower in Hm. rewrite Hm.
  replace (page_num <=? 15) with true by (symmetry; apply Z.leb_le; lia).
  simpl. by rewrite orb_true_r.
Qed.

Lemma is_low_value_page_front_matter_witness :
  nutrition_keyword_count "In particular, adults should limit sodium, sugar and fat." = 5
  ∧ ContentFilter.is_low_value_page
      "In particular, adults should limit sodium, sugar and fat." 12 100 5 = true.
Proof.
  split; [reflexivity|].
  apply is_low_value_page_front_matter; [lia|].
  apply any_in_lower. reflexivity.
Defined.



End FilterRules.

(** ** Life-stage tags *)

Section LifeStageTags.

Import PyFacts.





(** An aging term without an adult term gives no tag at all. *)
Example elderly_alone_is_general :
  ContentFilter.detect_life_stages "Elderly people need more vitamin D." = ["general"].
Proof. reflexivity. Qed.

End LifeStageTags.

(** ** Chunks and the pages they come from *)

Section ChunkInvariants.

Import PyFacts.

Lemma to_dict_source_file m : to_dict m !! "source_file" = Some (VStr (source_file m)).
Proof. reflexivity. Qed.
Lemma to_dict_topics m : to_dict m !! "topics" = Some (topics m).
Proof. reflexivity. Qed.

Lemma strings_of_strings l : strings_of (YStr <$> l) = Some l.
Proof. induction l as [|s l IH]; [done|]. rewrite fmap_cons. simpl. by rewrite IH. Qed.
Lemma to_dict_contains_tables m :
  to_dict m !! "contains_tables" = Some (VBool (contains_tables m)).
Proof. reflexivity. Qed.

(** X5: [to_dict] loses nothing and adds nothing: two metadata records
    with the same dictionary are the same record, and the dictionary has
    exactly the eight keys of the record. *)
Theorem to_dict_faithful :
  (∀ m1 m2, to_dict m1 = to_dict m2 → m1 = m2)
  ∧ (∀ m, dom (to_dict m)
          = list_to_set ["source"; "source_file"; "page"; "document_type"; "topics";
                         "life_stages"; "contains_tables"; "safety_level"]).
Proof.
  split.
  - intros m1 m2 H.
    assert (H1 := f_equal (λ d, d !! "source") H).
    assert (H2 := f_equal (λ d, d !! "source_file") H).
    assert (H3 := f_equal (λ d, d !! "page") H).
    assert (H4 := f_equal (λ d, d !! "document_type") H).
    assert (H5 := f_equal (λ d, d !! "topics") H).
    assert (H6 := f_equal (λ d, d !! "life_stages") H).
    assert (H7 := f_equal (λ d, d !! "contains_tables") H).
    assert (H8 := f_equal (λ d, d !! "safety_level") H).
    simpl in *.
    rewrite !to_dict_source in H1. rewrite !to_dict_source_file in H2.
    rewrite !to_dict_page in H3. rewrite !to_dict_document_type in H4.
    rewrite !to_dict_topics in H5. rewrite !to_dict_life_stages in H6.
    rewrite !to_dict_contains_tables in H7. rewrite !to_dict_safety_level in H8.
    destruct m1, m2. simpl in *. congruence.
  - intros m. unfold to_dict. rewrite !dom_insert_L, dom_empty_L. simpl.
    by rewrite !(assoc_L (∪)).
Qed.

Lemma process_pages_numbers entry doc_type total_pages first pages :
  ∃ ns,
    (λ d, metadata d !! "page") <$> process_pages entry doc_type total_pages first pages
    = (λ n, Some (VInt n)) <$> ns
    ∧ StronglySorted Z.lt ns
    ∧ Forall (λ n, first <= n < first + Z.of_nat (length pages)) ns.
Proof.
  revert first. induction pages as [|page pages IH]; intros first.
  - exists []. repeat split; constructor.
  - destruct (IH (first + 1)) as (ns & Hmap & Hsort & Hrange).
    assert (Hrange' : Forall (λ n, first + 1 <= n ∧ first <= n < first + Z.of_nat (length (page :: pages))) ns).
    { eapply Forall_impl; [exact Hrange|]. simpl. intros n Hn. simpl in Hn. lia. }
    simpl process_pages.
    destruct (process_page entry doc_type total_pages first page) as [d|] eqn:E.
    + exists (first :: ns). split; [|split].
      * apply process_page_Some in E as (extracted & _ & _ & _ & Hm). simpl in Hm.
        rewrite fmap_app, Hmap, fmap_cons. simpl. f_equal.
        by rewrite Hm, to_dict_page.
      * constructor; [done|]. eapply Forall_impl; [exact Hrange'|]. simpl. lia.
      * constructor; [simpl; lia|]. eapply Forall_impl; [exact Hrange'|]. simpl. tauto.
    + exists ns. split; [done|]. split; [done|].
      eapply Forall_impl; [exact Hrange'|]. simpl. tauto.
Qed.

(** X6: the chunks of a document carry strictly increasing page numbers
    between 1 and the number of pages of the PDF; so no page number comes
    twice and there are at most as many chunks as pages. *)
Theorem chunk_pages_increasing fs entry docs :
  process_single_document fs entry = Return docs →
  ∃ pages ns,
    fs !! entry_path entry = Some (PdfFile pages)
    ∧ (λ d, metadata d !! "page") <$> docs = (λ n, Some (VInt n)) <$> ns
    ∧ StronglySorted Z.lt ns
    ∧ NoDup ns
    ∧ Forall (λ n, 1 <= n <= Z.of_nat (length pages)) ns
    ∧ (length docs ≤ length pages)%nat.
Proof.
  unfold process_single_document.
  destruct (fs !! entry_path entry) as [[corpus|pages|]|] eqn:E; try discriminate.
  intros [= <-].
  destruct (process_pages_numbers entry (doc_type_of (entry_id entry))
              (Z.of_nat (length pages)) 1 pages) as (ns & Hmap & Hsort & Hrange).
  exists pages, ns. split; [done|]. split; [done|]. split; [done|].
  assert (Hnd : NoDup ns).
  { clear -Hsort. induction Hsort as [|n ns _ IH Hall]; constructor; [|done].
    intros Hin. eapply Forall_forall in Hall; [|exact Hin]. lia. }
  split; [done|]. split.
  - eapply Forall_impl; [exact Hrange|]. simpl. lia.
  - assert (Hlen : length (process_pages entry (doc_type_of (entry_id entry))
                             (Z.of_nat (length pages)) 1 pages) = length ns).
    { by rewrite <- (length_fmap (λ d, metadata d !! "page")), Hmap, length_fmap. }
    rewrite Hlen.
    assert (Hsub : ns ⊆ seqZ 1 (Z.of_nat (length pages))).
    { intros n Hn. eapply Forall_forall in Hrange; [|exact Hn].
      apply elem_of_seqZ. lia. }
    pose proof (submseteq_length _ _ (NoDup_submseteq _ _ Hnd Hsub)) as Hle.
    rewrite length_seqZ in Hle. lia.
Qed.

Lemma chunk_pages_increasing_witness :
  ∃ docs,
    process_single_document scenario_A_fs scenario_A_entry = Return docs
    ∧ ∃ pages ns,
        scenario_A_fs !! entry_path scenario_A_entry = Some (PdfFile pages)
        ∧ (λ d, metadata d !! "page") <$> docs = (λ n, Some (VInt n)) <$> ns
        ∧ StronglySorted Z.lt ns
        ∧ NoDup ns
        ∧ Forall (λ n, 1 <= n <= Z.of_nat (length pages)) ns
        ∧ (length docs ≤ length pages)%nat.
Proof.
  destruct (process_single_document scenario_A_fs scenario_A_entry) as [docs|] eqn:E;
    [|vm_compute in E; discriminate].
  exists docs. split; [reflexivity|].
  exact (chunk_pages_increasing _ _ _ E).
Defined.

(** X7: every chunk traces back to the page whose number it carries: its
    content is the text extracted from that page of the PDF, between the
    table markers exactly when [contains_tables] is set, so the page text
    is always inside the content; and it carries the id of its manifest
    entry, the last part of the entry's path as [Path] writes it, and the
    topics of the entry as they are: the list itself when they are a list
    of strings, [general] when the entry has no topics. *)
Theorem chunk_traces_to_page fs entry docs d :
  process_single_document fs entry = Return docs → d ∈ docs →
  ∃ pages (k : nat) raw,
    fs !! entry_path entry = Some (PdfFile pages)
    ∧ page_text <$> pages !! k = Some (Some raw)
    ∧ metadata d !! "page" = Some (VInt (Z.of_nat k + 1))
    ∧ metadata d !! "source" = Some (VStr (entry_id entry))
    ∧ metadata d !! "source_file"
      = Some (VStr (Py.basename (Py.path_str (entry_path entry))))
    ∧ metadata d !! "topics"
      = Some (from_option yaml_to_pyval (VList ["general"]) (entry_topics entry))
    ∧ (entry_topics entry = None → metadata d !! "topics" = Some (VList ["general"]))
    ∧ (∀ l, entry_topics entry = Some (YSeq (YStr <$> l)) →
         metadata d !! "topics" = Some (VList l))
    ∧ metadata d !! "contains_tables"
      = Some (VBool (TableProcessor.detect_nutrient_tables raw))
    ∧ page_content d
      = (if TableProcessor.detect_nutrient_tables raw then wrapped raw else raw)
    ∧ Substring raw (page_content d).
Proof.
  intros Hdocs Hin.
  destruct (process_single_document_chunk _ _ _ _ Hdocs Hin)
    as (pages & k & extracted & Hfs & Hk & _ & Hc & Hm).
  exists pages, k, (default "" extracted).
  assert (Hcontent : page_content d
            = if TableProcessor.detect_nutrient_tables (default "" extracted)
              then wrapped (default "" extracted) else default "" extracted).
  { rewrite Hc. unfold TableProcessor.extract_table_content, wrapped.
    by destruct (TableProcessor.detect_nutrient_tables _). }
  split; [done|]. split; [by rewrite Hk|].
  rewrite Hm, to_dict_page, to_dict_source, to_dict_source_file, to_dict_topics,
    to_dict_contains_tables. simpl.
  split; [do 2 f_equal; lia|]. do 3 (split; [done|]).
  split; [by intros ->|].
  split; [intros l ->; simpl; by rewrite strings_of_strings|].
  do 2 (split; [done|]).
  rewrite Hcontent. destruct (TableProcessor.detect_nutrient_tables _).
  - exists ("[NUTRIENT_TABLE_START]" +:+ TableProcessor.newline),
      (TableProcessor.newline +:+ "[NUTRIENT_TABLE_END]").
    unfold wrapped. by rewrite append_assoc.
  - apply Substring_refl.
Qed.

Lemma chunk_traces_to_page_witness :
  ∃ docs d,
    process_single_document scenario_A_fs scenario_A_entry = Return docs ∧ d ∈ docs
    ∧ metadata d !! "source" = Some (VStr "dga_2020")
    ∧ metadata d !! "source_file" = Some (VStr "x.pdf")
    ∧ metadata d !! "topics" = Some (VList ["sodium"])
    ∧ Substring "Sodium daily value 2300 mg adults limit." (page_content d).
Proof.
  destruct (process_single_document scenario_A_fs scenario_A_entry)
    as [[|d docs]|] eqn:E; try (vm_compute in E; discriminate).
  exists (d :: docs), d. split; [reflexivity|]. split; [left|].
  destruct (chunk_traces_to_page _ _ _ d E (list_elem_of_here _ _))
    as (pages & k & raw & _ & _ & _ & Hs & Hf & Ht & _ & _ & _ & _ & _).
  split; [exact Hs|]. split; [exact Hf|]. split; [exact Ht|].
  vm_compute in E. injection E as <- _. apply contains_spec. reflexivity.
Defined.

(** X8: the safety level of a chunk is one of the four levels, and
    [administrative] is found only past page 20 and only with the
    [general] life stage: up to page 20 every chunk has three or more
    nutrition keywords. *)
Theorem administrative_only_past_page_20 fs entry docs d :
  process_single_document fs entry = Return docs → d ∈ docs →
  ∃ level n,
    metadata d !! "safety_level" = Some (VStr level)
    ∧ metadata d !! "page" = Some (VInt n)
    ∧ level ∈ ["administrative"; "general"; "medical_caution"; "professional_use_only"]
    ∧ (level = "administrative" →
       20 < n ∧ metadata d !! "life_stages" = Some (VList ["general"]))
    ∧ (n <= 20 → level ≠ "administrative").
Proof.
  intros Hdocs Hin.
  destruct (process_single_document_chunk _ _ _ _ Hdocs Hin)
    as (pages & k & extracted & _ & _ & Hlow & _ & Hm).
  simpl in Hlow, Hm. set (text := default "" extracted) in *.
  rewrite is_low_value_page_formula in Hlow.
  rewrite !orb_false_iff in Hlow. destruct Hlow as [[[_ Hrule] _] _].
  eexists _, _. rewrite Hm, to_dict_safety_level, to_dict_page, to_dict_life_stages.
  split; [done|]. split; [done|]. simpl.
  unfold safety_level_of.
  destruct (nutrition_keyword_count text <? 3) eqn:Hc.
  - rewrite andb_true_r in Hrule. apply Z.leb_gt in Hrule.
    split; [left|]. split.
    + intros _. split; [lia|].
      by replace (3 <=? nutrition_keyword_count text) with false
        by (symmetry; apply Z.leb_gt; apply Z.ltb_lt in Hc; lia).
    + lia.
  - destruct (Py.any_in medical_triggers _), (Py.any_in professional_triggers _);
      (split; [repeat (first [left | right]) | split; [discriminate | intros _; discriminate]]).
Qed.

Lemma administrative_only_past_page_20_witness :
  ∃ docs d,
    process_single_document scenario_A_fs scenario_A_entry = Return docs ∧ d ∈ docs
    ∧ ∃ level n,
        metadata d !! "safety_level" = Some (VStr level)
        ∧ metadata d !! "page" = Some (VInt n)
        ∧ level ∈ ["administrative"; "general"; "medical_caution"; "professional_use_only"]
        ∧ (level = "administrative" →
           20 < n ∧ metadata d !! "life_stages" = Some (VList ["general"]))
        ∧ (n <= 20 → level ≠ "administrative").
Proof.
  destruct (process_single_document scenario_A_fs scenario_A_entry)
    as [[|d docs]|] eqn:E; try (vm_compute in E; discriminate).
  exists (d :: docs), d. split; [reflexivity|]. split; [left|].
  exact (administrative_only_past_page_20 _ _ _ d E (list_elem_of_here _ _)).
Defined.

End ChunkInvariants.

(** ** Pages that fail, and tables that are not *)

Section PageFailures.

Import PyFacts.

Lemma process_pages_app entry doc_type total_pages first l1 l2 :
  process_pages entry doc_type total_pages first (l1 ++ l2)
  = process_pages entry doc_type total_pages first l1
    ++ process_pages entry doc_type total_pages (first + Z.of_nat (length l1)) l2.
Proof.
  revert first. induction l1 as [|page l1 IH]; intros first.
  - simpl. by rewrite Z.add_0_r.
  - simpl process_pages. rewrite IH, <- app_assoc. do 3 f_equal. simpl length. lia.
Qed.

Lemma process_page_no_text entry doc_type total_pages page_num page :
  page_text page = None ∨ (∃ text, page_text page = Some text ∧ blank text = true) →
  process_page entry doc_type total_pages page_num page = None.
Proof.
  destruct page as [extracted|]; [|done].
  intros [H | (text & H & Hb)]; [discriminate|].
  injection H as <-. unfold process_page.
  by rewrite (is_low_value_page_formula (default "" extracted)), Hb.
Qed.

(** X9: a page whose extraction raises, or that has no text, costs only
    its own chunk: the chunks of the pages before and after it are what
    they are with any other page in its place, page numbers included. *)
Theorem page_failure_is_local fs entry before page failed after :
  fs !! entry_path entry = Some (PdfFile (before ++ page :: after)) →
  page_text failed = None ∨ (∃ text, page_text failed = Some text ∧ blank text = true) →
  ∃ front back,
    process_single_document fs entry
    = Return (front
              ++ option_list (process_page entry (doc_type_of (entry_id entry))
                                (Z.of_nat (length (before ++ page :: after)))
                                (Z.of_nat (length before) + 1) page)
              ++ back)
    ∧ process_single_document
        (<[entry_path entry := PdfFile (before ++ failed :: after)]> fs) entry
      = Return (front ++ back).
Proof.
  intros Hfs Hfailed.
  set (total := Z.of_nat (length (before ++ page :: after))).
  exists (process_pages entry (doc_type_of (entry_id entry)) total 1 before),
    (process_pages entry (doc_type_of (entry_id entry)) total
       (1 + Z.of_nat (length before) + 1) after).
  unfold process_single_document. rewrite Hfs, lookup_insert_eq.
  replace (Z.of_nat (length (before ++ failed :: after))) with total
    by (unfold total; rewrite !length_app; simpl; lia).
  fold total. rewrite !process_pages_app. simpl process_pages.
  rewrite (process_page_no_text _ _ _ _ _ Hfailed). simpl option_list.
  by replace (1 + Z.of_nat (length before)) with (Z.of_nat (length before) + 1) by lia.
Qed.

Lemma page_failure_is_local_witness :
  ∃ front back,
    process_single_document scenario_A_fs scenario_A_entry
    = Return (front
              ++ option_list (process_page scenario_A_entry (doc_type_of "dga_2020") 2 2
                                (Extracted (Some ("Sodium daily value 2300 mg adults limit. "
                                   +:+ "Sodium daily value 2300 mg adults limit."))))
              ++ back)
    ∧ process_single_document
        (<["x.pdf" := PdfFile [Extracted (Some "Table of Contents ... page iv");
                               ExtractRaises]]> scenario_A_fs) scenario_A_entry
      = Return (front ++ back).
Proof.
  exact (page_failure_is_local scenario_A_fs scenario_A_entry
           [Extracted (Some "Table of Contents ... page iv")]
           (Extracted (Some ("Sodium daily value 2300 mg adults limit. "
                             +:+ "Sodium daily value 2300 mg adults limit.")))
           ExtractRaises [] eq_refl (or_introl eq_refl)).
Defined.



End PageFailures.

(** ** What the flagging pass returns *)

Section FlaggingPass.

Import PyFacts.





Lemma validate_from_unflagged i docs :
  Forall (λ d, is_flagged d = false) docs → validate_from i docs = Return [].
Proof.
  intros H. revert i. induction H as [|d docs Hd _ IH]; intros i; simpl; [done|].
  rewrite Hd. apply IH.
Qed.



Lemma validate_from_raises i docs :
  (∃ e, validate_from i docs = Raise e) ↔
  ∃ d, d ∈ docs ∧ is_flagged d = true ∧ ¬ chunk_keys_present d.
Proof.
  revert i. induction docs as [|doc docs IH]; intros i; simpl.
  - split; [by intros [e ?] | by intros (d & ?%elem_of_nil & _)].
  - assert (Hrest : (∃ e, validate_from (S i) docs = Raise e) ↔
                    ∃ d, d ∈ docs ∧ is_flagged d = true ∧ ¬ chunk_keys_present d)
      by apply IH.
    destruct (is_flagged doc) eqn:F.
    + unfold getitem, chunk_keys_present.
      destruct (metadata doc !! "source") as [src|] eqn:Hs.
      * destruct (metadata doc !! "page") as [pg|] eqn:Hp; simpl.
        -- destruct (validate_from (S i) docs) as [ps|e] eqn:E; simpl.
           ++ split; [by intros [e ?]|].
              intros (d & [->|Hin]%elem_of_cons & Hf & Hk).
              ** exfalso. apply Hk. unfold chunk_keys_present. rewrite Hs, Hp. eauto.
              ** assert (Hex : ∃ e, @Return (list problem) ps = Raise e)
                   by (apply Hrest; eauto).
                 by destruct Hex.
           ++ split; [|eauto]. intros _.
              destruct (proj1 Hrest (ex_intro _ e eq_refl)) as (d & Hin & Hf & Hk).
              exists d. split; [by right | done].
        -- split; [|eauto]. intros _. exists doc. split; [left|]. split; [done|].
           unfold chunk_keys_present. rewrite Hp. by intros [_ [? ?]].
      * simpl. split; [|eauto]. intros _. exists doc. split; [left|]. split; [done|].
        unfold chunk_keys_present. rewrite Hs. by intros [[? ?] _].
    + rewrite Hrest. split.
      * intros (d & Hin & Hf & Hk). exists d. split; [by right | done].
      * intros (d & [->|Hin]%elem_of_cons & Hf & Hk); [congruence | eauto].
Qed.

Lemma validate_from_error i docs e :
  validate_from i docs = Raise e → e = KeyError "source" ∨ e = KeyError "page".
Proof.
  revert i. induction docs as [|doc docs IH]; intros i; simpl; [discriminate|].
  destruct (is_flagged doc); [|apply IH].
  unfold getitem. destruct (metadata doc !! "source"); simpl; [|intros [= <-]; by left].
  destruct (metadata doc !! "page"); simpl; [|intros [= <-]; by right].
  destruct (validate_from (S i) docs) eqn:E; simpl; [discriminate|].
  intros [= <-]. by eapply IH.
Qed.

(** X12: the flagging pass raises exactly when some flagged document
    lacks ['source'] or ['page'] in its metadata, and what it raises is the
    [KeyError] of that key; documents that are not flagged may have any
    metadata. *)
Theorem validate_processed_chunks_raises docs :
  ((∃ e, validate_processed_chunks docs = Raise e) ↔
   ∃ d, d ∈ docs ∧ is_flagged d = true ∧ ¬ chunk_keys_present d)
  ∧ (∀ e, validate_processed_chunks docs = Raise e →
          e = KeyError "source" ∨ e = KeyError "page")
  ∧ (Forall (λ d, is_flagged d = false) docs → validate_processed_chunks docs = Return []).
Proof.
  split; [apply validate_from_raises|]. split; [apply validate_from_error|].
  apply validate_from_unflagged.
Qed.

Lemma validate_processed_chunks_raises_witness :
  ∃ e, validate_processed_chunks [sodium_chunk 21; citation_chunk ∅] = Raise e
       ∧ (e = KeyError "source" ∨ e = KeyError "page").
Proof.
  destruct (validate_processed_chunks_raises [sodium_chunk 21; citation_chunk ∅])
    as (H1 & H2 & _).
  destruct (proj2 H1) as [e He].
  { exists (citation_chunk ∅). split; [right; left|]. split; [reflexivity|].
    intros [[v Hv] _]. discriminate. }
  exists e. split; [exact He | by apply H2].
Defined.

Lemma len_append (a b : string) : Py.len (a +:+ b) = (Py.len a + Py.len b)%nat.
Proof.
  induction a as [|c a IH]; [done|]. rewrite append_cons. simpl.
  destruct (Py.is_continuation c); lia.
Qed.

Lemma len_take n s : (Py.len (Py.take n s) ≤ n)%nat.
Proof.
  revert n. induction s as [|c s IH]; intros n; [simpl; lia|].
  cbn [Py.take]. destruct (Py.is_continuation c) eqn:C.
  - cbn [Py.len]. rewrite C. apply IH.
  - destruct n as [|n]; [simpl; lia|]. cbn [Py.len]. rewrite C.
    specialize (IH n). lia.
Qed.

Lemma len_replace_char a b s :
  Py.is_continuation a = false → Py.is_continuation b = false →
  Py.len (Py.replace_char a b s) = Py.len s.
Proof.
  intros Ha Hb. induction s as [|c s IH]; [done|]. simpl. rewrite IH.
  destruct (Ascii.eqb c a) eqn:E; [|done].
  apply Ascii.eqb_eq in E. subst c. by rewrite Ha, Hb.
Qed.

Lemma has_char_append c a b : has_char c (a +:+ b) = has_char c a || has_char c b.
Proof.
  induction a as [|x a IH]; [done|]. rewrite append_cons. simpl.
  by rewrite IH, orb_assoc.
Qed.

Lemma has_char_replace a b s : a ≠ b → has_char a (Py.replace_char a b s) = false.
Proof.
  intros Hne. induction s as [|c s IH]; [done|]. simpl. rewrite IH, orb_false_r.
  destruct (Ascii.eqb c a) eqn:E; [by apply Ascii.eqb_neq | done].
Qed.

Lemma validate_from_preview i docs ps :
  validate_from i docs = Return ps →
  Forall (λ p, (Py.len (prob_preview p) ≤ 153)%nat
               ∧ has_char (ascii_of_N 10) (prob_preview p) = false) ps.
Proof.
  revert i ps. induction docs as [|doc docs IH]; intros i ps; cbn [validate_from].
  - intros [= <-]. constructor.
  - destruct (is_flagged doc); [|apply IH].
    destruct (getitem (metadata doc) "source"); [|discriminate].
    destruct (getitem (metadata doc) "page"); [|discriminate]. cbn [bind].
    destruct (validate_from (S i) docs) as [ps'|] eqn:E; [|discriminate].
    cbn [bind]. intros H%Return_inj. subst ps.
    constructor; [|by eapply IH]. cbn [prob_preview]. split.
    + rewrite len_append, len_replace_char by reflexivity.
      pose proof (len_take 150 (page_content doc)).
      replace (Py.len "...") with 3%nat by reflexivity. lia.
    + rewrite has_char_append, has_char_replace by discriminate. reflexivity.
Qed.

(** X13: the preview of a flagged chunk is one line of at most 153
    characters, counted as Python counts them, whatever the bytes of their
    encoding: the first 150 of the content with every line feed turned
    into a blank, and three dots. *)
Theorem preview_is_one_short_line docs ps :
  validate_processed_chunks docs = Return ps →
  Forall (λ p, (Py.len (prob_preview p) ≤ 153)%nat
               ∧ has_char (ascii_of_N 10) (prob_preview p) = false) ps.
Proof. apply validate_from_preview. Qed.

Lemma preview_is_one_short_line_witness :
  ∃ ps, validate_processed_chunks scenario_C_docs = Return ps
        ∧ Forall (λ p, (Py.len (prob_preview p) ≤ 153)%nat
                       ∧ has_char (ascii_of_N 10) (prob_preview p) = false) ps.
Proof.
  destruct (validate_processed_chunks scenario_C_docs) as [ps|] eqn:E;
    [|vm_compute in E; discriminate].
  exists ps. split; [reflexivity|]. exact (preview_is_one_short_line _ _ E).
Defined.

(** X14: validation is idempotent: a corpus that the validation block
    returned is returned unchanged when it is validated again. *)
Theorem validate_and_clean_idempotent docs out :
  validate_and_clean docs = Return out → validate_and_clean out = Return out.
Proof.
  intros H. destruct (validate_processed_chunks docs) as [ps|e] eqn:V.
  - rewrite (validate_and_clean_returning _ _ V) in H.
    assert (Hout : out = survivors docs).
    { destruct (survivors docs), docs; congruence. }
    assert (Hno : Forall (λ d, is_flagged d = false) out).
    { subst out. apply Forall_forall. intros d Hin.
      by apply list_elem_of_filter in Hin as [? _]. }
    unfold validate_and_clean, validate_processed_chunks.
    by rewrite (validate_from_unflagged _ _ Hno).
  - rewrite (validate_and_clean_raising _ _ V) in H. injection H as <-.
    by apply validate_and_clean_raising with e.
Qed.

Lemma validate_and_clean_idempotent_witness :
  validate_and_clean [sodium_chunk 21; sodium_chunk 22]
  = Return [sodium_chunk 21; sodium_chunk 22].
Proof.
  apply (validate_and_clean_idempotent scenario_C_docs). reflexivity.
Defined.

End FlaggingPass.

(** ** What a run returns, counts and raises *)

Section RunOutcome.

Import PyFacts.

Lemma items_chunk_origin fs items d :
  d ∈ items_chunks fs items →
  ∃ entry docs, process_single_document fs entry = Return docs ∧ d ∈ docs.
Proof.
  unfold items_chunks. intros Hin.
  apply list_elem_of_In, in_concat in Hin as (docs & Hdocs & Hd).
  apply in_map_iff in Hdocs as (item & <- & _).
  unfold item_chunks, entry_chunks in Hd.
  destruct (as_entry item) as [entry|]; [|done].
  destruct (process_single_document fs entry) as [docs|] eqn:E; [|done].
  exists entry, docs. by rewrite list_elem_of_In.
Qed.

(** The loop stops at the first item whose [id] cannot be read, with the
    error of that lookup. *)
Lemma load_items_Raise fs items st e :
  load_items fs st items = Raise e →
  ∃ item, item ∈ items ∧ py_getitem item "id" = Raise e.
Proof.
  revert st. induction items as [|item items IH]; intros st; [done|].
  cbn [load_items]. unfold load_item at 1.
  destruct (py_getitem item "id") as [v|e'] eqn:Hid.
  - destruct (try_entry fs item); cbn [bind]; intros H;
      apply IH in H as (item' & Hin & H); exists item'; split; try done; by right.
  - cbn [bind]. intros [= <-]. exists item. split; [left | done].
Qed.

Lemma load_items_Return fs items st st' :
  load_items fs st items = Return st' → Forall carries_id items.
Proof.
  revert st. induction items as [|item items IH]; intros st; [constructor|].
  cbn [load_items]. unfold load_item at 1.
  destruct (py_getitem item "id") as [v|e'] eqn:Hid; [|done].
  destruct (try_entry fs item); cbn [bind]; intros H; apply IH in H;
    (constructor; [by exists v | done]).
Qed.

(** The ways a run ends, once the manifest file is there. *)
Lemma load_cases fs manifest_path f :
  fs !! manifest_path = Some f →
  (no_manifest f ∧ load_and_preprocess_documents fs manifest_path = Raise manifest_error)
  ∨ ∃ items,
      manifest_items fs manifest_path items
      ∧ ((Forall carries_id items
          ∧ load_and_preprocess_documents fs manifest_path
            = validate_and_clean (items_chunks fs items))
         ∨ ∃ item e, item ∈ items ∧ py_getitem item "id" = Raise e
                     ∧ load_and_preprocess_documents fs manifest_path = Raise e).
Proof.
  intros Hm. unfold load_and_preprocess_documents, no_manifest, manifest_items.
  rewrite Hm. destruct f as [doc|pages|]; cbn [yaml_safe_load]; [|by left..].
  destruct doc as [| | |s|items|fields]; cbn [py_len]; try by left.
  all: right; cbn [py_iter bind];
    match goal with |- context [load_items _ initial_state ?l] => exists l end;
    (split; [by eexists|]);
    match goal with |- context [load_items _ initial_state ?l] =>
      destruct (load_items fs initial_state l) as [st|e] eqn:E end; cbn [bind].
  all: try (left; pose proof (load_items_Return _ _ _ _ E) as Hids;
            rewrite (load_items_spec _ _ _ Hids) in E; apply Return_inj in E; subst st;
            by split).
  all: right; apply load_items_Raise in E as (item & Hin & Hid); by exists item, e.
Qed.

Lemma load_Return_inv fs manifest_path out :
  load_and_preprocess_documents fs manifest_path = Return out →
  ∃ items, manifest_items fs manifest_path items
           ∧ Forall carries_id items
           ∧ out = survivors (items_chunks fs items).
Proof.
  intros H. destruct (fs !! manifest_path) as [f|] eqn:Hm.
  2: { unfold load_and_preprocess_documents in H. by rewrite Hm in H. }
  destruct (load_cases _ _ _ Hm) as [[_ He] | (items & Hitems & [[Hids Hrun] | Hesc])].
  - congruence.
  - exists items. split; [done|]. split; [done|]. rewrite Hrun in H.
    rewrite (validate_and_clean_with_keys _ (items_chunks_keys fs items)) in H.
    destruct (survivors (items_chunks fs items)), (items_chunks fs items); congruence.
  - destruct Hesc as (item & e & _ & _ & He). congruence.
Qed.

(** X15: on the chunks a manifest yields the flagging pass never raises,
    so the fall-back to the unvalidated documents is never taken: whatever
    a run returns is the aggregate without its flagged chunks, in order,
    and no returned chunk is flagged. *)
Theorem run_returns_validated_chunks fs corpus :
  (∃ ps, validate_processed_chunks (all_documents (load_entries fs corpus)) = Return ps)
  ∧ (∀ manifest_path out,
       fs !! manifest_path = Some (YamlFile corpus) →
       load_and_preprocess_documents fs manifest_path = Return out →
       out = survivors (all_documents (load_entries fs corpus))
       ∧ Forall (λ d, is_flagged d = false) out
       ∧ out `sublist_of` all_documents (load_entries fs corpus)).
Proof.
  rewrite load_entries_spec. simpl. split.
  - apply validate_from_returns, corpus_chunks_keys.
  - intros manifest_path out Hm Hout.
    rewrite (load_and_preprocess_documents_spec _ _ _ Hm) in Hout.
    assert (out = survivors (corpus_chunks fs corpus)) as ->.
    { destruct (survivors (corpus_chunks fs corpus)), (corpus_chunks fs corpus);
        congruence. }
    split; [done|]. split.
    + apply Forall_forall. intros d Hin. by apply list_elem_of_filter in Hin as [? _].
    + apply sublist_filter.
Qed.

Lemma run_returns_validated_chunks_witness :
  ∃ out, load_and_preprocess_documents scenario_B_fs "manifest.yaml" = Return out
         ∧ Forall (λ d, is_flagged d = false) out.
Proof.
  destruct (load_and_preprocess_documents scenario_B_fs "manifest.yaml") as [out|] eqn:E;
    [|vm_compute in E; discriminate].
  exists out. split; [reflexivity|].
  exact (proj1 (proj2 (proj2 (run_returns_validated_chunks scenario_B_fs
           [scenario_B_missing; scenario_A_entry]) "manifest.yaml" out eq_refl E))).
Defined.

(** X16: the safety check of validation mode cannot fail: every chunk a
    run returns has a [safety_level] entry, and its metadata is the
    dictionary of a metadata record, with all eight keys. *)
Theorem safety_check_passes fs manifest_path out :
  load_and_preprocess_documents fs manifest_path = Return out →
  safety_check out = true
  ∧ Forall (λ d, ∃ m, metadata d = to_dict m) out.
Proof.
  intros H. apply load_Return_inv in H as (items & _ & _ & ->).
  assert (Hall : Forall (λ d, ∃ m, metadata d = to_dict m)
                   (survivors (items_chunks fs items))).
  { apply Forall_forall. intros d Hin. apply list_elem_of_filter in Hin as [_ Hin].
    apply items_chunk_origin in Hin as (entry & docs & Hdocs & Hd).
    destruct (process_single_document_chunk _ _ _ _ Hdocs Hd)
      as (pages & k & extracted & _ & _ & _ & _ & Hm).
    eauto. }
  split; [|exact Hall].
  unfold safety_check. apply forallb_forall. intros d Hin.
  apply list_elem_of_In in Hin. eapply Forall_forall in Hall; [|exact Hin].
  destruct Hall as [m Hm]. rewrite Hm, to_dict_safety_level.
  apply bool_decide_eq_true. eauto.
Qed.

Lemma safety_check_passes_witness :
  ∃ out, load_and_preprocess_documents scenario_A_fs "manifest.yaml" = Return out
         ∧ out ≠ [] ∧ safety_check out = true.
Proof.
  destruct (load_and_preprocess_documents scenario_A_fs "manifest.yaml") as [[|d out]|] eqn:E;
    try (vm_compute in E; discriminate).
  exists (d :: out). split; [reflexivity|]. split; [discriminate|].
  exact (proj1 (safety_check_passes _ _ _ E)).
Defined.

(** X17: what a run can raise.  Without a manifest file it raises
    [FileNotFoundError]; with a file that the parser rejects or that
    parses to something without a length, the [ValueError] whose text
    starts with "Manifest load error: ".  Once the manifest is read, the
    only errors are the integrity error of the validator, raised when
    every item has its [id] and all the chunks are flagged, and the
    [KeyError] or [TypeError] of an item whose [id] cannot be read, which
    is a mapping without that key or no mapping at all.  So a
    [FileNotFoundError] always means the manifest itself is missing, never
    one of the documents. *)
Theorem run_errors fs manifest_path :
  (fs !! manifest_path = None →
   load_and_preprocess_documents fs manifest_path
   = Raise (FileNotFoundError ("Manifest file not found: " +:+ manifest_path)))
  ∧ (∀ f, fs !! manifest_path = Some f → no_manifest f →
          load_and_preprocess_documents fs manifest_path
          = Raise (ValueError (StartsWith "Manifest load error: ")))
  ∧ (∀ e, load_and_preprocess_documents fs manifest_path = Raise e →
          match e with
          | FileNotFoundError _ => fs !! manifest_path = None
          | ValueError msg =>
              (msg = StartsWith "Manifest load error: "
               ∧ ∃ f, fs !! manifest_path = Some f ∧ no_manifest f)
              ∨ (e = integrity_error
                 ∧ ∃ items, manifest_items fs manifest_path items
                            ∧ Forall carries_id items
                            ∧ items_chunks fs items ≠ []
                            ∧ survivors (items_chunks fs items) = [])
          | KeyError key =>
              key = "id"
              ∧ ∃ items fields, manifest_items fs manifest_path items
                                ∧ YMap fields ∈ items ∧ fields !! "id" = None
          | TypeError =>
              ∃ items item, manifest_items fs manifest_path items
                            ∧ item ∈ items ∧ ∀ fields, item ≠ YMap fields
          | AttributeError => False
          end).
Proof.
  split; [|split].
  - intros Hm. unfold load_and_preprocess_documents. by rewrite Hm.
  - intros f Hm Hno. destruct (load_cases _ _ _ Hm) as [[_ He] | (items & Hitems & H)];
      [exact He|].
    exfalso. destruct Hitems as (doc & Hm' & Hiter).
    assert (f = YamlDoc doc) as -> by congruence.
    unfold no_manifest in Hno. cbn [yaml_safe_load] in Hno.
    by destruct doc.
  - intros e He. destruct (fs !! manifest_path) as [f|] eqn:Hm.
    2: { unfold load_and_preprocess_documents in He. rewrite Hm in He.
         by injection He as <-. }
    destruct (load_cases _ _ _ Hm) as [[Hno He'] | (items & Hitems & [[Hids Hrun] | Hesc])].
    + rewrite He' in He. injection He as <-. left. split; [done|]. by exists f.
    + rewrite Hrun in He.
      apply validate_and_clean_Raise in He as (-> & Hne & Hs & _).
      right. split; [done|]. by exists items.
    + destruct Hesc as (item & e' & Hin & Hid & He'). rewrite He' in He.
      injection He as ->.
      destruct item as [| | | | |fields]; simpl in Hid;
        try (injection Hid as <-; exists items; eexists; split; [done|];
             split; [exact Hin | done]).
      destruct (fields !! "id") eqn:Ef; [done|]. injection Hid as <-.
      split; [done|]. by exists items, fields.
Qed.

Lemma run_errors_witness :
  load_and_preprocess_documents scenario_A_fs "nowhere.yaml"
  = Raise (FileNotFoundError "Manifest file not found: nowhere.yaml")
  ∧ load_and_preprocess_documents scenario_A_fs "x.pdf"
    = Raise (ValueError (StartsWith "Manifest load error: "))
  ∧ ∃ items fields, manifest_items nameless_fs "manifest.yaml" items
                    ∧ YMap fields ∈ items ∧ fields !! "id" = None.
Proof.
  split; [|split].
  - exact (proj1 (run_errors scenario_A_fs "nowhere.yaml") eq_refl).
  - exact (proj1 (proj2 (run_errors scenario_A_fs "x.pdf")) _ eq_refl I).
  - assert (H : load_and_preprocess_documents nameless_fs "manifest.yaml"
                = Raise (KeyError "id")) by reflexivity.
    exact (proj2 (proj2 (proj2 (run_errors nameless_fs "manifest.yaml")) _ H)).
Defined.

End RunOutcome.

(** ** Counting documents *)

Section Counting.

Import PyFacts.

Lemma entry_fails_has_pdf fs entry : entry_fails fs entry = negb (has_pdf fs entry).
Proof.
  unfold entry_fails, has_pdf, process_single_document.
  by destruct (fs !! entry_path entry) as [[| |]|].
Qed.

Lemma filter_length_ext {A : Type} (P Q : A → Prop)
    `{!∀ x, Decision (P x)} `{!∀ x, Decision (Q x)} (l : list A) :
  (∀ x, P x ↔ Q x) → length (filter P l) = length (filter Q l).
Proof.
  intros Hiff. induction l as [|x l IH]; [done|]. rewrite !filter_cons.
  destruct (decide (P x)) as [HP|HP], (decide (Q x)) as [HQ|HQ]; simpl;
    try (by rewrite IH); exfalso; [apply HQ | apply HP]; by apply Hiff.
Qed.

(** X18: the loop counts every entry once: an entry is a success exactly
    when its file is there and opens as a PDF, also when none of its pages
    gives a chunk, and a failure otherwise; the two counters add up to the
    number of entries. *)
Theorem load_entries_counters fs corpus :
  successful_docs (load_entries fs corpus)
  = Z.of_nat (length (filter (λ entry, has_pdf fs entry = true) corpus))
  ∧ failed_docs (load_entries fs corpus)
    = Z.of_nat (length (filter (λ entry, has_pdf fs entry = false) corpus))
  ∧ successful_docs (load_entries fs corpus) + failed_docs (load_entries fs corpus)
    = Z.of_nat (length corpus).
Proof.
  split; [|split; [|apply load_entries_counts]];
    rewrite load_entries_spec; simpl; unfold count_successful, count_failed; f_equal;
    apply filter_length_ext; intros entry; rewrite entry_fails_has_pdf;
    by destruct (has_pdf fs entry).
Qed.

(** A PDF whose pages are all skipped is still a processed document. *)
Example empty_document_counts_as_success :
  load_entries {[ "x.pdf" := PdfFile [ExtractRaises; Extracted None] ]} [scenario_A_entry]
  = {| all_documents := []; successful_docs := 1; failed_docs := 0 |}.
Proof. reflexivity. Qed.

(** X19: manifests compose: the aggregate of two manifests one after the
    other is the aggregate of the first followed by the aggregate of the
    second, and the counters add up. *)
Theorem load_entries_app fs c1 c2 :
  all_documents (load_entries fs (c1 ++ c2))
  = all_documents (load_entries fs c1) ++ all_documents (load_entries fs c2)
  ∧ successful_docs (load_entries fs (c1 ++ c2))
    = successful_docs (load_entries fs c1) + successful_docs (load_entries fs c2)
  ∧ failed_docs (load_entries fs (c1 ++ c2))
    = failed_docs (load_entries fs c1) + failed_docs (load_entries fs c2).
Proof.
  rewrite !load_entries_spec. simpl.
  by rewrite corpus_chunks_app, count_successful_app, count_failed_app.
Qed.

Lemma missing_line rest : String.prefix "❌ MISSING: " ("❌ MISSING: " +:+ rest) = true.
Proof. apply prefix_spec. eauto. Qed.

(** X20: the path checker and the loader agree on missing files: the
    checker prints one line per entry, a MISSING line exactly for the
    entries whose file is not there, and every such entry is counted as a
    failed document by the loader; the loader counts more failures only
    when a file that is there does not open as a PDF. *)
Theorem path_validator_agrees_with_loader fs corpus :
  let lines := path_validator_lines fs corpus in
  let missing := filter (λ line, String.prefix "❌ MISSING: " line = true) lines in
  length lines = length corpus
  ∧ length missing = length (filter (λ entry, fs !! entry_path entry = None) corpus)
  ∧ Z.of_nat (length missing) <= failed_docs (load_entries fs corpus)
  ∧ (Forall (λ entry, fs !! entry_path entry = None ∨ has_pdf fs entry = true) corpus →
     Z.of_nat (length missing) = failed_docs (load_entries fs corpus)).
Proof.
  simpl. rewrite load_entries_spec. simpl. unfold path_validator_lines, count_failed.
  split; [by rewrite length_map|].
  assert (Hmissing :
    length (filter (λ line, String.prefix "❌ MISSING: " line = true)
              (map (λ doc, match fs !! entry_path doc with
                           | None => "❌ MISSING: " +:+ entry_id doc +:+ " at " +:+ entry_path doc
                           | Some _ => "✅ FOUND: " +:+ entry_id doc
                           end) corpus))
    = length (filter (λ entry, fs !! entry_path entry = None) corpus)).
  { induction corpus as [|entry corpus IH]; [done|].
    cbn [map]. rewrite !filter_cons.
    destruct (fs !! entry_path entry) as [f|] eqn:E.
    - rewrite decide_False by (vm_compute; discriminate).
      rewrite decide_False by discriminate. exact IH.
    - rewrite decide_True by apply missing_line.
      rewrite decide_True by done. simpl. by rewrite IH. }
  split; [exact Hmissing|]. rewrite Hmissing. clear Hmissing.
  split.
  - induction corpus as [|entry corpus IH]; [done|].
    rewrite !filter_cons, entry_fails_has_pdf. unfold has_pdf.
    destruct (fs !! entry_path entry) as [[| |]|]; simpl in *; lia.
  - intros Hall. f_equal.
    induction Hall as [|entry corpus Hentry _ IH]; [done|].
    rewrite !filter_cons, entry_fails_has_pdf.
    destruct Hentry as [Hnone | Hpdf].
    + unfold has_pdf. rewrite Hnone. simpl. by rewrite IH.
    + rewrite Hpdf. unfold has_pdf in Hpdf.
      destruct (fs !! entry_path entry) as [[| |]|]; try discriminate. simpl. exact IH.
Qed.

Lemma path_validator_agrees_with_loader_witness :
  path_validator_lines scenario_B_fs [scenario_B_missing; scenario_A_entry]
  = ["❌ MISSING: who_sugar at missing.pdf"; "✅ FOUND: dga_2020"]
  ∧ failed_docs (load_entries scenario_B_fs [scenario_B_missing; scenario_A_entry]) = 1.
Proof.
  split; [reflexivity|].
  destruct (path_validator_agrees_with_loader scenario_B_fs
              [scenario_B_missing; scenario_A_entry]) as (_ & _ & _ & H).
  rewrite <- H; [reflexivity|].
  constructor; [by left|]. constructor; [by right | constructor].
Defined.

End Counting.

